(** * quickstart.py: the Azure AI Agents getting-started sample

    A shallow embedding of
    [samples/microsoft/python/getting-started-agents/quickstart.py].

    The script is straight-line glue code around an external SDK.  It is
    embedded as a computation in a small state-and-exception monad:

    - the module's global namespace is a finite map from names to values
      (looking up an unbound name raises [NameError]);
    - every call of an external callable is answered by the [world]
      (a mocked client), and is appended to a trace together with every
      printed line and every evaluated [if] condition;
    - the process environment is not a value of the namespace: what
      [os.environ["k"]] yields is answered by the world as well, as a
      function of what happened so far, so that a call such as
      [load_dotenv()] can change what later reads find; every read is
      appended to the trace;
    - a raised exception ends the computation (the script has no handler).
*)

From stdpp Require Import base option list gmap strings.

Set Warnings "-register-all".

(** ** Values, exceptions, events *)

(** Python values as far as the script manipulates them.  Objects coming
    from the SDK are plain data: a bag of attributes, and a qualified name
    when the object can be called. *)
Inductive value : Type :=
| VNone
| VStr (s : string)
| VList (items : list value)
| VDict (entries : list (string * value))
| VObj (callable : option string) (attrs : list (string * value)).

Inductive exn : Type :=
| NameError (name : string)
| AttributeError (attr : string)
| KeyError (key : string)
| IndexError
| TypeError (what : string)
| ModuleNotFoundError (module : string)
| ImportError (module name : string)
| External (kind : string) (detail : string).

Inductive result (A : Type) : Type :=
| Ok (a : A)
| Raise (e : exn).
Arguments Ok {A} a.
Arguments Raise {A} e.

(** What an execution does, in program order. *)
Inductive event : Type :=
| ECall (callee : value) (args : list value) (kwargs : list (string * value))
| ECheck (lhs : value) (rhs : string) (holds : bool)
| EPrint (line : string)
| ERead (mapping : value) (key : string).

(** The part of the execution that the script does not own: which modules
    can be imported, how external callables answer (as a function of what
    happened so far), how non-string objects are rendered by [str], and what
    the process environment holds.  The environment is mutable state outside
    the script: [getenv h mapping k] is what [mapping["k"]] yields for the
    mapping object [os.environ] once the events [h] have happened, so the
    calls recorded in [h] (line 25 calls [load_dotenv()] for that purpose)
    may have added, changed or removed variables. *)
Record world : Type := World {
  modules : string → option value;
  respond : list event → value → list value → list (string * value) → result value;
  render : value → string;
  getenv : list event → value → string → result value
}.

Record state : Type := State {
  globals : gmap string value;
  trace : list event
}.

Definition set_global (x : string) (v : value) (st : state) : state :=
  {| globals := <[x := v]> (globals st); trace := trace st |}.

Definition add_event (e : event) (st : state) : state :=
  {| globals := globals st; trace := trace st ++ [e] |}.

(** ** Pure helpers: Python's operations on values *)

Fixpoint assoc (k : string) (kvs : list (string * value)) : option value :=
  match kvs with
  | [] => None
  | (k', v) :: rest => if String.eqb k k' then Some v else assoc k rest
  end.

(** [v.a] *)
Definition get_attr (v : value) (a : string) : result value :=
  match v with
  | VObj _ attrs =>
      match assoc a attrs with
      | Some x => Ok x
      | None => Raise (AttributeError a)
      end
  | _ => Raise (AttributeError a)
  end.

(** [v.a1.a2...] evaluated left to right *)
Fixpoint get_path (v : value) (path : list string) : result value :=
  match path with
  | [] => Ok v
  | a :: rest =>
      match get_attr v a with
      | Ok x => get_path x rest
      | Raise e => Raise e
      end
  end.

(** [v["k"]] *)
Definition get_key (v : value) (k : string) : result value :=
  match v with
  | VDict entries =>
      match assoc k entries with
      | Some x => Ok x
      | None => Raise (KeyError k)
      end
  | VStr _ | VList _ => Raise (TypeError "indices must be integers")
  | _ => Raise (TypeError "object is not subscriptable")
  end.

(** [v[i]] for a non-negative literal [i] *)
Definition get_index (v : value) (i : nat) : result value :=
  match v with
  | VList items =>
      match items !! i with
      | Some x => Ok x
      | None => Raise IndexError
      end
  | VStr s =>
      match String.get i s with
      | Some c => Ok (VStr (String c EmptyString))
      | None => Raise IndexError
      end
  | VDict _ => Raise (KeyError "0")
  | _ => Raise (TypeError "object is not subscriptable")
  end.

Fixpoint chars (s : string) : list value :=
  match s with
  | EmptyString => []
  | String c rest => VStr (String c EmptyString) :: chars rest
  end.

(** The items a [for] loop visits. *)
Definition iter_items (v : value) : result (list value) :=
  match v with
  | VList items => Ok items
  | VDict entries => Ok (map (λ kv, VStr (fst kv)) entries)
  | VStr s => Ok (chars s)
  | _ => Raise (TypeError "object is not iterable")
  end.

(** [v == "s"] for a string literal on the right. *)
Definition eq_str (v : value) (s : string) : bool :=
  match v with
  | VStr s' => String.eqb s' s
  | _ => false
  end.

Definition is_callable (v : value) : bool :=
  match v with
  | VObj (Some _) _ => true
  | _ => false
  end.

(** ** The monad

    A computation reads the world, threads the state and may raise. *)

Definition M (A : Type) : Type := world → state → result A * state.

Definition ret {A} (a : A) : M A := λ _ st, (Ok a, st).

Definition bind {A B} (m : M A) (f : A → M B) : M B :=
  λ W st, match m W st with
          | (Ok a, st') => f a W st'
          | (Raise e, st') => (Raise e, st')
          end.

Definition lift {A} (r : result A) : M A := λ _ st, (r, st).

Declare Scope py_scope.
Delimit Scope py_scope with py.
Notation "x <~ m ; k" := (bind m (λ x, k))
  (at level 20, m at level 100, k at level 200, only parsing) : py_scope.
Notation "m ;; k" := (bind m (λ _, k))
  (at level 100, k at level 200, only parsing, right associativity) : py_scope.
Local Open Scope py_scope.

(** Reading a global name. *)
Definition name (x : string) : M value :=
  λ _ st, match globals st !! x with
          | Some v => (Ok v, st)
          | None => (Raise (NameError x), st)
          end.

(** [x = v] at module level. *)
Definition store (x : string) (v : value) : M unit :=
  λ _ st, (Ok tt, set_global x v st).

(** [x.a1.a2...] *)
Definition dotted (x : string) (path : list string) : M value :=
  v <~ name x; lift (get_path v path).

(** A call [f(a, ..., k=v, ...)] of an already evaluated callee on already
    evaluated positional and keyword arguments.  The call is recorded
    whether it returns or raises.  What the callee does outside the script
    is the world's business: the answers to later calls and what later
    reads of the process environment find both depend on the trace, which
    from now on holds this call. *)
Definition call (f : value) (args : list value) (kwargs : list (string * value)) : M value :=
  λ W st, if is_callable f
          then (respond W (trace st) f args kwargs, add_event (ECall f args kwargs) st)
          else (Raise (TypeError "object is not callable"), st).

(** [str(v)], as applied by [print] and by the fields of an f-string. *)
Definition py_str (W : world) (v : value) : string :=
  match v with
  | VStr s => s
  | VNone => "None"
  | _ => render W v
  end.

Definition str (v : value) : M string :=
  λ W st, (Ok (py_str W v), st).

(** [print(line)] for an already formatted line. *)
Definition print (line : string) : M unit :=
  λ _ st, (Ok tt, add_event (EPrint line) st).

(** The condition of [if v == "s":]. *)
Definition test_eq (v : value) (s : string) : M bool :=
  λ _ st, (Ok (eq_str v s), add_event (ECheck v s (eq_str v s)) st).

(** [from m import x] *)
Definition import_from (m x : string) : M unit :=
  λ W st, match modules W m with
          | None => (Raise (ModuleNotFoundError m), st)
          | Some md =>
              match get_attr md x with
              | Ok v => (Ok tt, set_global x v st)
              | Raise _ => (Raise (ImportError m x), st)
              end
          end.

(** [for x in items: body], the loop variable being a global. *)
Fixpoint for_each (x : string) (items : list value) (body : M unit) : M unit :=
  match items with
  | [] => ret tt
  | v :: rest => store x v;; body;; for_each x rest body
  end.

(** [mapping["k"]] for the mapping object found at [os.environ]: the
    variable is looked up in the process environment as it is by now.  The
    read is recorded whether it returns or raises. *)
Definition read_environ (mapping : value) (k : string) : M value :=
  λ W st, (getenv W (trace st) mapping k, add_event (ERead mapping k) st).

(** [os.environ["k"]] *)
Definition environ (k : string) : M value :=
  mapping <~ dotted "os" ["environ"]; read_environ mapping k.

(** ** The script *)

(** *** Lines 24-25 *)
Definition load_env : M unit :=
  import_from "dotenv" "load_dotenv";;
  f <~ name "load_dotenv";
  call f [] [];;
  ret tt.

(** *** Lines 32-34 *)
Definition sdk_imports : M unit :=
  import_from "azure.ai.projects.onedp" "AIProjectClient";;
  import_from "azure.identity" "DefaultAzureCredential";;
  import_from "azure.ai.projects" "FileSearchTool".

(** *** Lines 37-40 *)
Definition init_client : M unit :=
  ctor <~ name "AIProjectClient";
  endpoint <~ environ "PROJECT_ENDPOINT";
  cred_ctor <~ name "DefaultAzureCredential";
  cred <~ call cred_ctor [] [];
  client <~ call ctor [] [("endpoint", endpoint); ("credential", cred)];
  store "project_client" client.

Definition chat_messages : value :=
  VList [ VDict [("role", VStr "system"); ("content", VStr "You are a helpful writing assistant")];
          VDict [("role", VStr "user"); ("content", VStr "Write me a poem about flowers")] ].

(** *** Lines 43-53 *)
Definition chat : M unit :=
  f <~ dotted "project_client" ["get_openai_client"];
  oa <~ call f [] [("api_version", VStr "2024-06-01")];
  store "openai" oa;;
  f <~ dotted "openai" ["chat"; "completions"; "create"];
  model <~ environ "MODEL_DEPLOYMENT_NAME";
  resp <~ call f [] [("model", model); ("messages", chat_messages)];
  store "response" resp;;
  choices <~ dotted "response" ["choices"];
  first <~ lift (get_index choices 0);
  content <~ lift (get_path first ["message"; "content"]);
  line <~ str content;
  print line.

Definition chat_completion : M unit :=
  sdk_imports;; init_client;; chat.

(** *** Lines 58-79: everything up to and including the run *)
Definition create_and_run_agent_run : M unit :=
  f <~ dotted "project_client" ["agents"; "create_agent"];
  model <~ environ "MODEL_DEPLOYMENT_NAME";
  agent <~ call f [] [("model", model); ("name", VStr "my-agent");
                      ("instructions", VStr "You are a helpful writing assistant")];
  store "agent" agent;;
  aid <~ dotted "agent" ["id"];
  s <~ str aid;
  print ("Created agent, ID: " +:+ s);;
  f <~ dotted "project_client" ["agents"; "threads"; "create"];
  thread <~ call f [] [];
  store "thread" thread;;
  tid <~ dotted "thread" ["id"];
  s <~ str tid;
  print ("Created thread, ID: " +:+ s);;
  f <~ dotted "project_client" ["agents"; "messages"; "create"];
  tid <~ dotted "thread" ["id"];
  message <~ call f [] [("thread_id", tid); ("role", VStr "user");
                        ("content", VStr "Write me a poem about flowers")];
  store "message" message;;
  m <~ name "message";
  mid <~ lift (get_key m "id");
  s <~ str mid;
  print ("Created message, ID: " +:+ s);;
  f <~ dotted "project_client" ["agents"; "runs"; "create_and_process"];
  tid <~ dotted "thread" ["id"];
  aid <~ dotted "agent" ["id"];
  run <~ call f [] [("thread_id", tid); ("agent_id", aid)];
  store "run" run;;
  status <~ dotted "run" ["status"];
  s <~ str status;
  print ("Run finished with status: " +:+ s).

(** *** Lines 81-83, and again lines 117-118:
    [if run.status == "failed": print(f"Run failed: {run.last_error}")] *)
Definition report_failed_run : M unit :=
  status <~ dotted "run" ["status"];
  failed <~ test_eq status "failed";
  if failed : bool
  then err <~ dotted "run" ["last_error"];
       s <~ str err;
       print ("Run failed: " +:+ s)
  else ret tt.

(** The body of the loop of lines 87-88. *)
Definition log_message : M unit :=
  role <~ dotted "message" ["role"];
  r <~ str role;
  content <~ dotted "message" ["content"];
  c <~ str content;
  print ("Role: " +:+ r +:+ ", Content: " +:+ c).

(** *** Lines 86-92 *)
Definition create_and_run_agent_finish : M unit :=
  f <~ dotted "project_client" ["agents"; "messages"; "list"];
  tid <~ dotted "thread" ["id"];
  messages <~ call f [] [("thread_id", tid)];
  store "messages" messages;;
  ms <~ name "messages";
  items <~ lift (iter_items ms);
  for_each "message" items log_message;;
  f <~ dotted "project_client" ["agents"; "delete_agent"];
  aid <~ dotted "agent" ["id"];
  call f [aid] [];;
  print "Deleted agent".

Definition create_and_run_agent : M unit :=
  create_and_run_agent_run;; report_failed_run;; create_and_run_agent_finish.

(** *** Lines 98-114: everything up to and including the run *)
Definition create_filesearch_agent_run : M unit :=
  f <~ dotted "project" ["agents"; "files"; "upload"];
  file <~ call f [] [("file_path", VStr "product_info_1.md"); ("purpose", VStr "agents")];
  store "file" file;;
  f <~ dotted "project" ["agents"; "vector_stores"; "create_and_poll"];
  fid <~ dotted "file" ["id"];
  vs <~ call f [] [("file_ids", VList [fid]); ("name", VStr "my_vectorstore")];
  store "vector_store" vs;;
  ctor <~ name "FileSearchTool";
  vsid <~ dotted "vector_store" ["id"];
  fs <~ call ctor [] [("vector_store_ids", VList [vsid])];
  store "file_search" fs;;
  f <~ dotted "project" ["agents"; "create_agent"];
  tools <~ dotted "file_search" ["definitions"];
  resources <~ dotted "file_search" ["resources"];
  agent <~ call f [] [("model", VStr "gpt-4o"); ("name", VStr "my-assistant");
                      ("instructions",
                       VStr "You are a helpful assistant and can search information from uploaded files");
                      ("tools", tools); ("tool_resources", resources)];
  store "agent" agent;;
  f <~ dotted "project" ["agents"; "threads"; "create"];
  thread <~ call f [] [];
  store "thread" thread;;
  f <~ dotted "project" ["agents"; "messages"; "create"];
  tid <~ dotted "thread" ["id"];
  call f [] [("thread_id", tid); ("role", VStr "user");
             ("content", VStr "Hello, what Contoso products do you know?")];;
  f <~ dotted "project" ["agents"; "runs"; "create_and_process"];
  tid <~ dotted "thread" ["id"];
  aid <~ dotted "agent" ["id"];
  run <~ call f [] [("thread_id", tid); ("agent_id", aid)];
  store "run" run.

(** *** Lines 121-123 *)
Definition cleanup_resources : M unit :=
  f <~ dotted "project" ["agents"; "vector_stores"; "delete"];
  vsid <~ dotted "vector_store" ["id"];
  call f [vsid] [];;
  f <~ dotted "project" ["agents"; "files"; "delete"];
  fid <~ dotted "file" ["id"];
  call f [] [("file_id", fid)];;
  f <~ dotted "project" ["agents"; "delete_agent"];
  aid <~ dotted "agent" ["id"];
  call f [aid] [];;
  ret tt.

(** The body of the loop of lines 126-127. *)
Definition print_message : M unit :=
  m <~ name "message";
  line <~ str m;
  print line.

(** *** Lines 126-127 *)
Definition print_thread_messages : M unit :=
  f <~ dotted "project" ["agents"; "messages"; "list"];
  tid <~ dotted "thread" ["id"];
  listing <~ call f [] [("thread_id", tid)];
  texts <~ lift (get_attr listing "text_messages");
  items <~ lift (iter_items texts);
  for_each "message" items print_message.

Definition create_filesearch_agent : M unit :=
  create_filesearch_agent_run;; report_failed_run;;
  cleanup_resources;; print_thread_messages.

(** *** Lines 131-142 *)
Definition evaluate_agent_run : M unit :=
  import_from "azure.ai.projects" "EvaluatorIds";;
  f <~ dotted "project" ["evaluation"; "create_agent_evaluation"];
  tid <~ dotted "thread" ["id"];
  rid <~ dotted "run" ["id"];
  ev <~ dotted "EvaluatorIds" ["AGENT_QUALITY_EVALUATOR"];
  res <~ call f [] [("thread", tid); ("run", rid); ("evaluators", VList [ev])];
  store "result" res;;
  f <~ dotted "result" ["wait_for_completion"];
  call f [] [];;
  f <~ dotted "result" ["output"];
  out <~ call f [] [];
  line <~ str out;
  print line.

(** The whole file, top to bottom. *)
Definition quickstart : M unit :=
  load_env;; chat_completion;; create_and_run_agent;;
  create_filesearch_agent;; evaluate_agent_run.

(** ** Executions *)

(** [python quickstart.py]: an empty module namespace, nothing done yet. *)
Definition fresh : state := {| globals := ∅; trace := [] |}.

(** The script run with some names already bound, as a test harness does
    with [runpy.run_path(path, init_globals=g)]. *)
Definition started (g : gmap string value) : state := {| globals := g; trace := [] |}.

(** The [os] module as far as the script looks at it: an object whose
    attribute [environ] is the mapping object.  Here the mapping is given
    as the dictionary of the variables the process started with; what a
    read finds in it later is up to the world. *)
Definition os_module (env : list (string * value)) : value :=
  VObj None [("environ", VDict env)].

(** What [os.environ] evaluates to in the state [st]. *)
Definition environ_mapping (st : state) : result value :=
  match globals st !! "os" with
  | Some os => get_path os ["environ"]
  | None => Raise (NameError "os")
  end.

(** Projections of a trace: the external calls, the evaluated conditions,
    the printed lines and the environment variables read, each in program
    order. *)
Fixpoint calls (t : list event) : list event :=
  match t with
  | [] => []
  | ECall f args kwargs :: rest => ECall f args kwargs :: calls rest
  | _ :: rest => calls rest
  end.

Fixpoint checks (t : list event) : list event :=
  match t with
  | [] => []
  | ECheck v s b :: rest => ECheck v s b :: checks rest
  | _ :: rest => checks rest
  end.

Fixpoint printed (t : list event) : list string :=
  match t with
  | [] => []
  | EPrint line :: rest => line :: printed rest
  | _ :: rest => printed rest
  end.

Fixpoint reads (t : list event) : list string :=
  match t with
  | [] => []
  | ERead _ k :: rest => k :: reads rest
  | _ :: rest => reads rest
  end.

(** The world's answer to the call, or to the read of the environment,
    [c] issued after the events [h]. *)
Definition answer_to (W : world) (h : list event) (c : event) : option (result value) :=
  match c with
  | ECall f args kwargs => Some (respond W h f args kwargs)
  | ERead mapping k => Some (getenv W h mapping k)
  | _ => None
  end.

(** In the trace [t], the call (or read) [c] was issued when the calls made
    so far were exactly [before], and it returned [v]. *)
Definition answered (W : world) (t before : list event) (c : event) (v : value) : Prop :=
  ∃ h rest, t = h ++ c :: rest ∧ calls h = before ∧ answer_to W h c = Some (Ok v).

(** Every call and every read of the environment among the events [ext],
    issued after [h], returned. *)
Fixpoint all_return (W : world) (h ext : list event) : Prop :=
  match ext with
  | [] => True
  | c :: rest =>
      (∀ e, answer_to W h c ≠ Some (Raise e)) ∧ all_return W (h ++ [c]) rest
  end.

(** ** Straight-line computations

    What a computation built from the primitives above can do to its
    surroundings, and the computations built from nothing else: in
    particular without any construct that inspects a raised exception. *)
Inductive action : Type :=
| Reads (x : string)
| Binds (x : string)
| Environ (k : string)
| Emits (e : event).

Inductive straight (ok : action → Prop) : ∀ {A : Type}, M A → Prop :=
| straight_ret {A} (a : A) : straight ok (ret a)
| straight_lift {A} (r : result A) : straight ok (lift r)
| straight_bind {A B} (m : M A) (f : A → M B) :
    straight ok m → (∀ a, straight ok (f a)) → straight ok (bind m f)
| straight_name x : ok (Reads x) → straight ok (name x)
| straight_environ k : ok (Environ k) → straight ok (environ k)
| straight_store x v : ok (Binds x) → straight ok (store x v)
| straight_import m x : ok (Binds x) → straight ok (import_from m x)
| straight_call f args kwargs :
    ok (Emits (ECall f args kwargs)) → straight ok (call f args kwargs)
| straight_str v : straight ok (str v)
| straight_print line : ok (Emits (EPrint line)) → straight ok (print line)
| straight_test v s :
    ok (Emits (ECheck v s (eq_str v s))) → straight ok (test_eq v s).

(** No restriction at all. *)
Definition anything : action → Prop := λ _, True.

(** Only events satisfying [P] are produced. *)
Definition emitting (P : event → Prop) : action → Prop :=
  λ a, match a with
       | Emits e => P e
       | Environ k => ∀ mapping, P (ERead mapping k)
       | _ => True
       end.

(** The name [x] is not assigned. *)
Definition not_binding (x : string) : action → Prop :=
  λ a, match a with Binds y => y ≠ x | _ => True end.

(** An event that is not a read of the environment. *)
Definition no_read (e : event) : Prop :=
  match e with
  | ERead _ _ => False
  | _ => True
  end.

(** A read of the environment reads [MODEL_DEPLOYMENT_NAME]. *)
Definition model_read (e : event) : Prop :=
  match e with
  | ERead _ k => k = "MODEL_DEPLOYMENT_NAME"
  | _ => True
  end.

(** A read of the environment reads one of the two documented variables. *)
Definition documented_read (e : event) : Prop :=
  match e with
  | ERead _ k => k = "PROJECT_ENDPOINT" ∨ k = "MODEL_DEPLOYMENT_NAME"
  | _ => True
  end.

(** The outcome [r] of an execution that produced the events [ext] after
    [h] leaves no exception of a call or of a read of the environment
    unaccounted for: either every call and every read returned, or the last
    event is a call or a read that raised and [r] is that very exception. *)
Definition unhandled {A} (W : world) (h ext : list event) (r : result A) : Prop :=
  all_return W h ext ∨
  ∃ ext' c e, ext = ext' ++ [c] ∧ all_return W h ext'
              ∧ answer_to W (h ++ ext') c = Some (Raise e) ∧ r = Raise e.

(** From [st] to [st'] no name other than [x] was assigned. *)
Definition only_binds (x : string) (st st' : state) : Prop :=
  ∀ y, y ≠ x → globals st' !! y = globals st !! y.

(** What the loop of lines 87-88 prints for one message. *)
Definition logged (W : world) (item : value) (line : string) : Prop :=
  ∃ role content,
    get_path item ["role"] = Ok role ∧ get_path item ["content"] = Ok content
    ∧ line = "Role: " +:+ py_str W role +:+ ", Content: " +:+ py_str W content.

(** What the loop of lines 126-127 prints for one message. *)
Definition shown (W : world) (item : value) (line : string) : Prop :=
  line = py_str W item.

(** A call that passes a [model] keyword passes the literal ["gpt-4o"]. *)
Definition hard_coded_model (e : event) : Prop :=
  match e with
  | ECall _ _ kwargs => ∀ m, assoc "model" kwargs = Some m → m = VStr "gpt-4o"
  | _ => True
  end.

(** A call that passes no [model] keyword. *)
Definition no_model (e : event) : Prop :=
  match e with
  | ECall _ _ kwargs => assoc "model" kwargs = None
  | _ => True
  end.

(** An event that is not the evaluation of a condition. *)
Definition no_check (e : event) : Prop :=
  match e with
  | ECheck _ _ _ => False
  | _ => True
  end.

(** Lines 24-92: everything before the file-search section. *)
Definition before_filesearch : M unit :=
  load_env;; chat_completion;; create_and_run_agent.

(** Lines 24-34: everything before the client is constructed. *)
Definition preamble : M unit := load_env;; sdk_imports.

(** Lines 43-142: everything after the client is constructed. *)
Definition after_init_client : M unit :=
  chat;; create_and_run_agent;; create_filesearch_agent;; evaluate_agent_run.

(** What follows the evaluation of [run.status == "failed"]: on the true
    branch the diagnostic line and then the next call, on the false branch
    the next call at once. *)
Definition reported (W : world) (run : value) (failed : bool) (after : list event) : Prop :=
  if failed
  then ∃ err f args kwargs rest,
         get_path run ["last_error"] = Ok err
         ∧ after = EPrint ("Run failed: " +:+ py_str W err) :: ECall f args kwargs :: rest
  else ∃ f args kwargs rest, after = ECall f args kwargs :: rest.

(** The one check of a section: the status of the section's run is compared
    with ["failed"] once, and the diagnostic is printed on that branch. *)
Definition checks_run_once (W : world) (st st' : state) : Prop :=
  ∃ run status before after,
    globals st' !! "run" = Some run
    ∧ get_path run ["status"] = Ok status
    ∧ trace st' = before ++ ECheck status "failed" (eq_str status "failed") :: after
    ∧ checks before = checks (trace st)
    ∧ checks after = []
    ∧ reported W run (eq_str status "failed") after.

(** The name [os] is neither read nor assigned. *)
Definition ignoring_os : action → Prop :=
  λ a, match a with
       | Reads x | Binds x => x ≠ "os"
       | Environ _ => False
       | Emits _ => True
       end.

(** Two states that differ at most in what [os] is bound to. *)
Definition same_but_os (st1 st2 : state) : Prop :=
  trace st1 = trace st2 ∧ ∀ x, x ≠ "os" → globals st1 !! x = globals st2 !! x.

(** The state after lines 81-83 (or 117-118) have reported a failed run. *)
Definition after_report (W : world) (err : value) (st : state) : state :=
  add_event (EPrint ("Run failed: " +:+ py_str W err))
    (add_event (ECheck (VStr "failed") "failed" true) st).

(** Lines 121-142: what follows the status check of the file-search section. *)
Definition after_filesearch_check : M unit :=
  cleanup_resources;; print_thread_messages;; evaluate_agent_run.

(** The diagnostic of lines 83 and 118, when it is printed. *)
Definition diagnostic (W : world) (status err : value) : list string :=
  if eq_str status "failed" then ["Run failed: " +:+ py_str W err] else [].

(** Only the names of [names] are assigned. *)
Definition binding_only (names : list string) : action → Prop :=
  λ a, match a with Binds y => In y names | _ => True end.

(** The names assigned somewhere in the script. *)
Definition assigned_names : list string :=
  [ "load_dotenv"; "AIProjectClient"; "DefaultAzureCredential"; "FileSearchTool";
    "project_client"; "openai"; "response"; "agent"; "thread"; "message"; "run";
    "messages"; "file"; "vector_store"; "file_search"; "EvaluatorIds"; "result" ].

(** The names assigned by lines 24-40. *)
Definition bootstrap_names : list string :=
  [ "load_dotenv"; "AIProjectClient"; "DefaultAzureCredential"; "FileSearchTool";
    "project_client" ].

(** Lines 24-40: everything up to the construction of the client. *)
Definition bootstrap : M unit := load_env;; sdk_imports;; init_client.

(** ** A mocked client

    A concrete world, used to run the script: every SDK callable is a named
    stub, and the status of the two runs is chosen by the test. *)
Module Mock.

Definition fn (qualname : string) : value := VObj (Some qualname) [].

Definition agents : value :=
  VObj None
    [ ("create_agent", fn "agents.create_agent");
      ("delete_agent", fn "agents.delete_agent");
      ("threads", VObj None [("create", fn "agents.threads.create")]);
      ("messages", VObj None [("create", fn "agents.messages.create");
                              ("list", fn "agents.messages.list")]);
      ("runs", VObj None [("create_and_process", fn "agents.runs.create_and_process")]);
      ("files", VObj None [("upload", fn "agents.files.upload");
                           ("delete", fn "agents.files.delete")]);
      ("vector_stores", VObj None [("create_and_poll", fn "agents.vector_stores.create_and_poll");
                                   ("delete", fn "agents.vector_stores.delete")]) ].

Definition client : value :=
  VObj None
    [ ("agents", agents);
      ("get_openai_client", fn "get_openai_client");
      ("evaluation", VObj None [("create_agent_evaluation", fn "evaluation.create_agent_evaluation")]) ].

Definition installed (m : string) : option value :=
  assoc m
    [ ("dotenv", VObj None [("load_dotenv", fn "load_dotenv")]);
      ("azure.ai.projects.onedp", VObj None [("AIProjectClient", fn "AIProjectClient")]);
      ("azure.identity", VObj None [("DefaultAzureCredential", fn "DefaultAzureCredential")]);
      ("azure.ai.projects",
       VObj None [("FileSearchTool", fn "FileSearchTool");
                  ("EvaluatorIds", VObj None [("AGENT_QUALITY_EVALUATOR", VStr "agent_quality")])]) ].

Definition thread_message (role text : string) : value :=
  VObj None [("role", VStr role); ("content", VStr text)].

(** Answers that do not depend on the arguments. *)
Definition fixed_answers : list (string * value) :=
  [ ("load_dotenv", VNone);
    ("DefaultAzureCredential", VObj None []);
    ("AIProjectClient", client);
    ("get_openai_client",
     VObj None [("chat", VObj None [("completions", VObj None [("create", fn "chat.completions.create")])])]);
    ("chat.completions.create",
     VObj None [("choices", VList [VObj None [("message", VObj None [("content", VStr "Roses are red")])]])]);
    ("agents.threads.create", VObj None [("id", VStr "thread_1")]);
    ("agents.messages.create", VDict [("id", VStr "msg_1")]);
    ("agents.messages.list", VList [thread_message "user" "Write me a poem about flowers";
                                    thread_message "assistant" "Roses are red"]);
    ("agents.delete_agent", VNone);
    ("agents.files.upload", VObj None [("id", VStr "file_1")]);
    ("agents.files.delete", VNone);
    ("agents.vector_stores.create_and_poll", VObj None [("id", VStr "vs_1")]);
    ("agents.vector_stores.delete", VNone);
    ("FileSearchTool", VObj None [("definitions", VList [VDict [("type", VStr "file_search")]]);
                                  ("resources", VDict [("file_search", VStr "vs_1")])]);
    ("evaluation.create_agent_evaluation",
     VObj None [("wait_for_completion", fn "result.wait_for_completion");
                ("output", fn "result.output")]);
    ("result.wait_for_completion", VNone);
    ("result.output", VStr "quality: 5") ].

Definition kwarg (k : string) (kwargs : list (string * value)) : string :=
  match assoc k kwargs with
  | Some (VStr s) => s
  | _ => ""
  end.

(** Whether the callable named [qualname] has been called before. *)
Fixpoint seen (qualname : string) (history : list event) : bool :=
  match history with
  | [] => false
  | ECall (VObj (Some q) _) _ _ :: rest => String.eqb q qualname || seen qualname rest
  | _ :: rest => seen qualname rest
  end.

(** [status1] is the status of the run of agent [my-agent], [status2] that
    of the file-search agent [my-assistant].  The second listing of a
    thread's messages answers with a page object, as line 126 expects. *)
Definition answer (status1 status2 : string)
    (history : list event) (f : value) (args : list value)
    (kwargs : list (string * value)) : result value :=
  match f with
  | VObj (Some qualname) _ =>
      if String.eqb qualname "agents.create_agent"
      then Ok (VObj None [("id", VStr ("asst_" +:+ kwarg "name" kwargs))])
      else if String.eqb qualname "agents.runs.create_and_process"
      then Ok (VObj None
                 [("id", VStr "run_1");
                  ("status", VStr (if String.eqb (kwarg "agent_id" kwargs) "asst_my-agent"
                                   then status1 else status2));
                  ("last_error", VStr "rate_limit_exceeded")])
      else if String.eqb qualname "agents.messages.list" && seen qualname history
      then Ok (VObj None [("text_messages", VList [VStr "We sell tents and backpacks"])])
      else match assoc qualname fixed_answers with
           | Some v => Ok v
           | None => Raise (External "HttpResponseError" qualname)
           end
  | _ => Raise (TypeError "object is not callable")
  end.

(** The environment of the mocked process is the dictionary that the
    harness put at [os.environ], and no call touches it. *)
Definition mock (status1 status2 : string) : world :=
  {| modules := installed;
     respond := answer status1 status2;
     render := λ _, "<object>";
     getenv := λ _ mapping k, get_key mapping k |}.

Definition env : list (string * value) :=
  [ ("PROJECT_ENDPOINT", VStr "https://example.invalid/api/projects/p");
    ("MODEL_DEPLOYMENT_NAME", VStr "gpt-4o-mini") ].

(** The same world, except that every call times out once more than
    [limit] events have happened. *)
Definition impatient (limit : nat) (W : world) : world :=
  {| modules := modules W;
     respond := λ history f args kwargs,
       if limit <? length history
       then Raise (External "TimeoutError" "the service did not answer")
       else respond W history f args kwargs;
     render := render W;
     getenv := getenv W |}.

(** The names a harness has to bind for the script to get anywhere. *)
Definition harness : gmap string value :=
  <["os" := os_module env]> (<["project" := client]> ∅).

(** A client whose chat completion comes back without any choice. *)
Definition speechless : world :=
  {| modules := installed;
     respond := λ history f args kwargs,
       match f with
       | VObj (Some "chat.completions.create") _ => Ok (VObj None [("choices", VList [])])
       | _ => answer "completed" "completed" history f args kwargs
       end;
     render := λ _, "<object>";
     getenv := λ _ mapping k, get_key mapping k |}.

(** A client whose runs fail without saying why. *)
Definition terse : world :=
  {| modules := installed;
     respond := λ history f args kwargs,
       match f with
       | VObj (Some "agents.runs.create_and_process") _ =>
           Ok (VObj None [("id", VStr "run_1"); ("status", VStr "failed")])
       | _ => answer "failed" "failed" history f args kwargs
       end;
     render := λ _, "<object>";
     getenv := λ _ mapping k, get_key mapping k |}.

(** An environment without [MODEL_DEPLOYMENT_NAME]. *)
Definition env_without_model : list (string * value) :=
  [ ("PROJECT_ENDPOINT", VStr "https://example.invalid/api/projects/p") ].

(** A machine on which none of the imported packages is installed. *)
Definition bare : world :=
  {| modules := λ _, None;
     respond := answer "completed" "completed";
     render := λ _, "<object>";
     getenv := λ _ mapping k, get_key mapping k |}.


(** The same world, except that every variable other than the two
    documented ones is set to [v]. *)
Definition with_other_variables (v : value) (W : world) : world :=
  {| modules := modules W;
     respond := respond W;
     render := render W;
     getenv := λ history mapping k,
       if String.eqb k "PROJECT_ENDPOINT" || String.eqb k "MODEL_DEPLOYMENT_NAME"
       then getenv W history mapping k
       else Ok v |}.


End Mock.

(** * Reasoning rules *)

Lemma calls_app t1 t2 : calls (t1 ++ t2) = calls t1 ++ calls t2.
Proof.
  induction t1 as [|[] t1 IH]; simpl; [done | by f_equal | done | done | done].
Qed.

Lemma checks_app t1 t2 : checks (t1 ++ t2) = checks t1 ++ checks t2.
Proof.
  induction t1 as [|[] t1 IH]; simpl; [done | done | by f_equal | done | done].
Qed.

Lemma printed_app t1 t2 : printed (t1 ++ t2) = printed t1 ++ printed t2.
Proof.
  induction t1 as [|[] t1 IH]; simpl; [done | done | done | by f_equal | done].
Qed.

Lemma reads_app t1 t2 : reads (t1 ++ t2) = reads t1 ++ reads t2.
Proof.
  induction t1 as [|[] t1 IH]; simpl; [done | done | done | done | by f_equal].
Qed.

Lemma calls_prints lines : calls (map EPrint lines) = [].
Proof. by induction lines. Qed.

Lemma checks_prints lines : checks (map EPrint lines) = [].
Proof. by induction lines. Qed.

Lemma printed_prints lines : printed (map EPrint lines) = lines.
Proof. induction lines; simpl; [done | by f_equal]. Qed.

Lemma reads_prints lines : reads (map EPrint lines) = [].
Proof. by induction lines. Qed.

Lemma globals_set_global x v st : globals (set_global x v st) = <[x := v]> (globals st).
Proof. done. Qed.

Lemma globals_add_event e st : globals (add_event e st) = globals st.
Proof. done. Qed.

Lemma trace_set_global x v st : trace (set_global x v st) = trace st.
Proof. done. Qed.

Lemma trace_add_event e st : trace (add_event e st) = trace st ++ [e].
Proof. done. Qed.

(** ** Inversion of a computation that returned *)

Lemma bind_ok {A B} (m : M A) (f : A → M B) W st b st' :
  bind m f W st = (Ok b, st') →
  ∃ a st1, m W st = (Ok a, st1) ∧ f a W st1 = (Ok b, st').
Proof.
  unfold bind. destruct (m W st) as [[a|e] st1]; [eauto | discriminate].
Qed.

Lemma ret_ok {A} (a b : A) W st st' : ret a W st = (Ok b, st') → b = a ∧ st' = st.
Proof. unfold ret. by intros [= -> ->]. Qed.

Lemma lift_ok {A} (r : result A) W st a st' :
  lift r W st = (Ok a, st') → r = Ok a ∧ st' = st.
Proof. unfold lift. by intros [= -> ->]. Qed.

Lemma name_ok x W st v st' :
  name x W st = (Ok v, st') → globals st !! x = Some v ∧ st' = st.
Proof.
  unfold name. destruct (globals st !! x); [by intros [= -> ->] | discriminate].
Qed.

Lemma store_ok x v W st u st' : store x v W st = (Ok u, st') → st' = set_global x v st.
Proof. unfold store. intros ?; by simplify_eq. Qed.

Lemma dotted_ok x path W st v st' :
  dotted x path W st = (Ok v, st') →
  ∃ o, globals st !! x = Some o ∧ get_path o path = Ok v ∧ st' = st.
Proof.
  unfold dotted. intros (o & st1 & Hn & Hl)%bind_ok.
  apply name_ok in Hn as [Hn ->]. apply lift_ok in Hl as [Hl ->]. eauto.
Qed.

Lemma environ_ok k W st v st' :
  environ k W st = (Ok v, st') →
  ∃ os env, globals st !! "os" = Some os ∧ get_attr os "environ" = Ok env
            ∧ getenv W (trace st) env k = Ok v ∧ st' = add_event (ERead env k) st.
Proof.
  unfold environ. intros (env & st1 & Hd & Hl)%bind_ok.
  apply dotted_ok in Hd as (os & Hos & Hp & ->).
  unfold read_environ in Hl. injection Hl as Hl <-.
  exists os, env. simpl in Hp. destruct (get_attr os "environ"); by simplify_eq.
Qed.

Lemma call_ok f args kwargs W st v st' :
  call f args kwargs W st = (Ok v, st') →
  is_callable f = true ∧ respond W (trace st) f args kwargs = Ok v
  ∧ st' = add_event (ECall f args kwargs) st.
Proof.
  unfold call. destruct (is_callable f); [by intros [= -> <-] | discriminate].
Qed.

Lemma str_ok v W st s st' : str v W st = (Ok s, st') → s = py_str W v ∧ st' = st.
Proof. unfold str. by intros [= <- <-]. Qed.

Lemma print_ok line W st u st' :
  print line W st = (Ok u, st') → st' = add_event (EPrint line) st.
Proof. unfold print. intros ?; by simplify_eq. Qed.

Lemma test_eq_ok v s W st b st' :
  test_eq v s W st = (Ok b, st') →
  b = eq_str v s ∧ st' = add_event (ECheck v s (eq_str v s)) st.
Proof. unfold test_eq. by intros [= <- <-]. Qed.

Lemma import_from_ok m x W st u st' :
  import_from m x W st = (Ok u, st') →
  ∃ md v, modules W m = Some md ∧ get_attr md x = Ok v ∧ st' = set_global x v st.
Proof.
  unfold import_from. destruct (modules W m) as [md|]; [|discriminate].
  destruct (get_attr md x) as [v|] eqn:Hv; [|discriminate].
  intros ?; simplify_eq. by exists md, v.
Qed.

(** A loop whose body prints one line per item and assigns nothing. *)
Lemma for_each_ok (P : value → string → Prop) x items body W :
  (∀ v st st', body W (set_global x v st) = (Ok tt, st') →
     ∃ line, P v line ∧ st' = add_event (EPrint line) (set_global x v st)) →
  ∀ st st', for_each x items body W st = (Ok tt, st') →
    ∃ lines, Forall2 P items lines
             ∧ trace st' = trace st ++ map EPrint lines
             ∧ only_binds x st st'.
Proof.
  unfold only_binds. intros Hbody. induction items as [|v items IH]; intros st st' Hrun; simpl in Hrun.
  - apply ret_ok in Hrun as [_ ->]. exists []. split_and!; [constructor | by rewrite app_nil_r | done].
  - apply bind_ok in Hrun as ([] & st1 & Hs & Hrun). apply store_ok in Hs as ->.
    apply bind_ok in Hrun as ([] & st2 & Hb & Hrun).
    apply Hbody in Hb as (line & HP & ->).
    apply IH in Hrun as (lines & HPs & Ht & Hg).
    exists (line :: lines). split_and!.
    + by constructor.
    + rewrite Ht. simpl. by rewrite <- app_assoc.
    + intros y Hy. rewrite Hg by done. simpl. by rewrite lookup_insert_ne.
Qed.

(** ** Inversion of a piece of the script that returned

    [inverted H] takes the hypothesis [H : m W st = (Ok a, st')] apart, in
    program order: each step leaves what it looked up and what the world
    answered, and the state it reached is written out. *)

Ltac normalise H :=
  repeat first
    [ progress cbn [globals trace set_global add_event] in H
    | rewrite lookup_insert_eq in H
    | rewrite lookup_insert_ne in H by discriminate
    | match goal with
      | Hg : only_binds _ _ ?s |- _ => rewrite (Hg _) in H by discriminate
      | Ht : trace ?s = _ |- _ => is_var s; rewrite Ht in H
      end ].

Ltac found H :=
  normalise H;
  lazymatch type of H with
  | Some _ = Some _ => injection H as H; subst
  | _ => idtac
  end.

Ltac inverted_step H other :=
  lazymatch type of H with
  | bind _ _ _ _ = (Ok _, _) =>
      let a := fresh "a" in
      let s := fresh "s" in
      let H1 := fresh "H" in
      let H2 := fresh "H" in
      apply bind_ok in H as (a & s & H1 & H2);
      repeat match goal with u : unit |- _ => destruct u end;
      inverted_step H1 other;
      cbv beta in H2;
      inverted_step H2 other
  | ret _ _ _ = (Ok _, _) => apply ret_ok in H as [? ?]; subst
  | lift _ _ _ = (Ok _, _) => apply lift_ok in H as [H ?]; subst
  | name _ _ _ = (Ok _, _) => apply name_ok in H as [H ?]; subst; found H
  | store _ _ _ _ = (Ok _, _) => apply store_ok in H; subst
  | dotted _ _ _ _ = (Ok _, _) =>
      let o := fresh "o" in
      apply dotted_ok in H as (o & H & ? & ?); subst; found H
  | environ _ _ _ = (Ok _, _) =>
      let os := fresh "os" in
      let env := fresh "env" in
      let Hr := fresh "Hread" in
      apply environ_ok in H as (os & env & H & ? & Hr & ?); subst; found H; normalise Hr
  | call _ _ _ _ _ = (Ok _, _) => apply call_ok in H as (? & H & ?); subst; normalise H
  | str _ _ _ = (Ok _, _) => apply str_ok in H as [? ?]; subst
  | print _ _ _ = (Ok _, _) => apply print_ok in H; subst
  | test_eq _ _ _ _ = (Ok _, _) => apply test_eq_ok in H as [? ?]; subst
  | import_from _ _ _ _ = (Ok _, _) =>
      apply import_from_ok in H as (? & ? & H & ? & ?); subst
  | (if ?b then _ else _) _ _ = (Ok _, _) =>
      let E := fresh "Hcond" in
      destruct b eqn:E; inverted_step H other
  | _ => other H
  end.

(** ** Straight-line computations *)

Lemma straight_weaken (ok ok' : action → Prop) {A} (m : M A) :
  (∀ a, ok a → ok' a) → straight ok m → straight ok' m.
Proof.
  intros Hok.
  induction 1;
    [ apply straight_ret | apply straight_lift | apply straight_bind
    | apply straight_name | apply straight_environ | apply straight_store
    | apply straight_import | apply straight_call | apply straight_str
    | apply straight_print | apply straight_test ]; auto.
Qed.

Lemma straight_dotted ok x path : ok (Reads x) → straight ok (dotted x path).
Proof.
  intros Hx. unfold dotted. apply straight_bind; [by apply straight_name|].
  intros v. apply straight_lift.
Qed.

Lemma straight_for_each ok x items body :
  ok (Binds x) → straight ok body → straight ok (for_each x items body).
Proof.
  intros Hx Hbody. induction items as [|v items IH]; simpl; [apply straight_ret|].
  apply straight_bind; [by apply straight_store|]. intros _.
  apply straight_bind; [done|]. by intros _.
Qed.

(** Builds the derivation of [straight] for a piece of the script, leaving
    the conditions on the actions to the caller. *)
Ltac straighten :=
  repeat first
    [ apply straight_ret | apply straight_lift | apply straight_str
    | apply straight_environ
    | apply straight_dotted
    | apply straight_name | apply straight_store | apply straight_import
    | apply straight_call | apply straight_print | apply straight_test
    | apply straight_for_each
    | apply straight_bind; [| intros ?]
    | match goal with |- straight _ (if ?b then _ else _) => destruct b end ].

(** A read of the environment either fails before anything is asked, or
    asks the world and records the question. *)
Lemma environ_unfold k W st :
  environ k W st =
  match environ_mapping st with
  | Ok mapping => (getenv W (trace st) mapping k, add_event (ERead mapping k) st)
  | Raise e => (Raise e, st)
  end.
Proof.
  unfold environ, environ_mapping, dotted, bind, name, lift, read_environ.
  destruct (globals st !! "os") as [os|]; [|done].
  by destruct (get_path os ["environ"]).
Qed.

Lemma environ_globals k W st : globals (snd (environ k W st)) = globals st.
Proof. rewrite environ_unfold. by destruct (environ_mapping st). Qed.

(** A straight-line computation only ever extends the trace, and with
    permitted events only. *)
Lemma straight_emits (P : event → Prop) {A} (m : M A) :
  straight (emitting P) m →
  ∀ W st, ∃ ext, trace (snd (m W st)) = trace st ++ ext ∧ Forall P ext.
Proof.
  induction 1 as [A a|A r|A B m f _ IHm _ IHf|x _|k Hk|x v _|md x _
                 |f args kwargs Hc|v|line Hp|v s Ht]; intros W st.
  - exists []. by rewrite app_nil_r.
  - exists []. by rewrite app_nil_r.
  - destruct (IHm W st) as (ext1 & Ht1 & HP1). unfold bind.
    destruct (m W st) as [[a|e] st1]; simpl in *; [|eauto].
    destruct (IHf a W st1) as (ext2 & Ht2 & HP2).
    exists (ext1 ++ ext2). rewrite Ht2, Ht1, app_assoc. split; [done|].
    by apply Forall_app.
  - exists []. unfold name. rewrite app_nil_r. by destruct (globals st !! x).
  - rewrite environ_unfold. destruct (environ_mapping st) as [mapping|e]; simpl.
    + exists [ERead mapping k]. split; [done|]. constructor; [apply Hk | done].
    + exists []. by rewrite app_nil_r.
  - exists []. by rewrite app_nil_r.
  - exists []. unfold import_from. rewrite app_nil_r.
    destruct (modules W md) as [o|]; [|done]. by destruct (get_attr o x).
  - unfold call. destruct (is_callable f); simpl.
    + exists [ECall f args kwargs]. split; [done|]. by constructor.
    + exists []. by rewrite app_nil_r.
  - exists []. by rewrite app_nil_r.
  - exists [EPrint line]. split; [done|]. by constructor.
  - exists [ECheck v s (eq_str v s)]. split; [done|]. by constructor.
Qed.

Lemma straight_extends {A} (m : M A) :
  straight anything m → ∀ W st, ∃ ext, trace (snd (m W st)) = trace st ++ ext.
Proof.
  intros Hm W st.
  destruct (straight_emits (λ _, True) m) with (W := W) (st := st) as (ext & Ht & _);
    [|by exists ext].
  eapply straight_weaken; [|done]. by intros [].
Qed.

(** *** A name that is never assigned stays unbound *)

Lemma straight_keeps x {A} (m : M A) :
  straight (not_binding x) m →
  ∀ W st, globals st !! x = None → globals (snd (m W st)) !! x = None.
Proof.
  induction 1 as [A a|A r|A B m f _ IHm _ IHf|y _|k _|y v Hy|md y Hy
                 |f args kwargs _|v|line _|v s _]; intros W st Hx; try done.
  - specialize (IHm W st Hx). unfold bind.
    destruct (m W st) as [[a|e] st1]; simpl in *; [|done]. by apply IHf.
  - unfold name. by destruct (globals st !! y).
  - by rewrite environ_globals.
  - simpl. by rewrite lookup_insert_ne.
  - unfold import_from. destruct (modules W md) as [o|]; [|done].
    destruct (get_attr o y); [|done]. simpl. by rewrite lookup_insert_ne.
  - unfold call. by destruct (is_callable f).
Qed.

(** *** No exception is handled *)

Lemma all_return_app W h ext1 ext2 :
  all_return W h (ext1 ++ ext2) ↔ all_return W h ext1 ∧ all_return W (h ++ ext1) ext2.
Proof.
  revert h. induction ext1 as [|c ext1 IH]; intros h; simpl.
  - rewrite app_nil_r. tauto.
  - rewrite IH, <- app_assoc. simpl. tauto.
Qed.

Lemma straight_unhandled {A} (m : M A) :
  straight anything m →
  ∀ W st, ∃ ext, trace (snd (m W st)) = trace st ++ ext
                 ∧ unhandled W (trace st) ext (fst (m W st)).
Proof.
  induction 1 as [A a|A r|A B m f _ IHm _ IHf|x _|k _|x v _|md x _
                 |f args kwargs _|v|line _|v s _]; intros W st.
  - exists []. rewrite app_nil_r. by split; [|left].
  - exists []. rewrite app_nil_r. by split; [|left].
  - destruct (IHm W st) as (ext1 & Ht1 & Hu1). unfold bind.
    destruct (m W st) as [[a|e] st1]; simpl in *.
    + destruct Hu1 as [Hr1|(? & ? & ? & _ & _ & _ & [=])].
      destruct (IHf a W st1) as (ext2 & Ht2 & Hu2).
      exists (ext1 ++ ext2). rewrite Ht2, Ht1, app_assoc. split; [done|].
      rewrite Ht1 in Hu2. destruct Hu2 as [Hr2|(ext' & c & e & -> & Hr2 & Hc & Hr)].
      * left. by apply all_return_app.
      * right. exists (ext1 ++ ext'), c, e. rewrite !app_assoc.
        split_and!; [done| by apply all_return_app |done|done].
    + exists ext1. split; [done|].
      destruct Hu1 as [Hr1|(ext' & c & e' & -> & Hr1 & Hc & Hr)]; [by left|].
      right. simplify_eq. by exists ext', c, e'; split_and!.
  - exists []. unfold name. rewrite app_nil_r.
    by destruct (globals st !! x); (split; [|left]).
  - rewrite environ_unfold. destruct (environ_mapping st) as [mapping|e]; simpl.
    + exists [ERead mapping k]. split; [done|].
      destruct (getenv W (trace st) mapping k) as [v|e] eqn:Hr.
      * left. simpl. rewrite Hr. split; [|done]. by intros e [=].
      * right. exists [], (ERead mapping k), e. rewrite app_nil_r. simpl.
        by rewrite Hr.
    + exists []. rewrite app_nil_r. by split; [|left].
  - exists []. rewrite app_nil_r. by split; [|left].
  - exists []. unfold import_from. rewrite app_nil_r.
    destruct (modules W md) as [o|]; [|by split; [|left]].
    by destruct (get_attr o x); (split; [|left]).
  - unfold call. destruct (is_callable f); simpl.
    + exists [ECall f args kwargs]. split; [done|].
      destruct (respond W (trace st) f args kwargs) as [v|e] eqn:Hr.
      * left. simpl. rewrite Hr. split; [|done]. by intros e [=].
      * right. exists [], (ECall f args kwargs), e. rewrite app_nil_r. simpl.
        by rewrite Hr.
    + exists []. rewrite app_nil_r. by split; [|left].
  - exists []. rewrite app_nil_r. by split; [|left].
  - exists [EPrint line]. by split; [|left].
  - exists [ECheck v s (eq_str v s)]. by split; [|left].
Qed.

(** *** An execution depends on the world only through what it asked *)

Lemma py_str_ext W1 W2 v : (∀ u, render W2 u = render W1 u) → py_str W2 v = py_str W1 v.
Proof. intros Hr. destruct v; simpl; auto. Qed.

Lemma straight_replay {A} (m : M A) :
  straight anything m →
  ∀ W1 W2 st,
    (∀ x, modules W2 x = modules W1 x) →
    (∀ v, render W2 v = render W1 v) →
    (∀ h c rest, trace (snd (m W1 st)) = h ++ c :: rest →
                 answer_to W2 h c = answer_to W1 h c) →
    m W2 st = m W1 st.
Proof.
  induction 1 as [A a|A r|A B m f _ IHm Hf IHf|x _|k _|x v _|md x _
                 |f args kwargs _|v|line _|v s _]; intros W1 W2 st Hmod Hren Hans; try done.
  - assert (m W2 st = m W1 st) as Hm.
    { apply IHm; [done|done|]. intros h c rest Ht. unfold bind in Hans.
      destruct (m W1 st) as [[a|e] st1]; simpl in *; [|by eapply Hans].
      destruct (straight_extends (f a) (Hf a) W1 st1) as (ext & Hext).
      apply (Hans h c (rest ++ ext)). by rewrite Hext, Ht, <- app_assoc. }
    unfold bind in *. rewrite Hm. destruct (m W1 st) as [[a|e] st1]; [|done].
    by apply IHf.
  - rewrite !environ_unfold in *. destruct (environ_mapping st) as [mapping|e]; [|done].
    simpl in Hans.
    specialize (Hans (trace st) (ERead mapping k) [] eq_refl). simpl in Hans.
    injection Hans as ->. done.
  - unfold import_from. by rewrite Hmod.
  - unfold call in *. destruct (is_callable f); [|done]. simpl in Hans.
    specialize (Hans (trace st) (ECall f args kwargs) [] eq_refl). simpl in Hans.
    injection Hans as ->. done.
  - unfold str. by rewrite (py_str_ext W1 W2).
Qed.

(** ** The two loops *)

Ltac no_unfolding H := idtac.

Lemma log_messages_ok W items st st' :
  for_each "message" items log_message W st = (Ok tt, st') →
  ∃ lines, Forall2 (logged W) items lines
           ∧ trace st' = trace st ++ map EPrint lines
           ∧ only_binds "message" st st'.
Proof.
  apply for_each_ok. clear. intros v st st' Hbody. unfold log_message in Hbody.
  inverted_step Hbody no_unfolding. eexists. split; [|done]. by eexists _, _.
Qed.

Lemma print_messages_ok W items st st' :
  for_each "message" items print_message W st = (Ok tt, st') →
  ∃ lines, Forall2 (shown W) items lines
           ∧ trace st' = trace st ++ map EPrint lines
           ∧ only_binds "message" st st'.
Proof.
  apply for_each_ok. clear. intros v st st' Hbody. unfold print_message in Hbody.
  inverted_step Hbody no_unfolding. by eexists.
Qed.

Ltac script_parts H :=
  first
    [ apply log_messages_ok in H as (? & ? & ? & ?)
    | apply print_messages_ok in H as (? & ? & ? & ?)
    | progress
        unfold quickstart, load_env, chat_completion, sdk_imports, init_client, chat,
          create_and_run_agent, create_and_run_agent_run, report_failed_run,
          create_and_run_agent_finish, create_filesearch_agent,
          create_filesearch_agent_run, cleanup_resources, print_thread_messages,
          evaluate_agent_run in H;
      inverted_step H script_parts
    | idtac ].

Ltac inverted H := inverted_step H script_parts.

Ltac merge_results :=
  simplify_eq;
  repeat match goal with
         | H1 : ?t = Ok ?a, H2 : ?t = Ok ?b |- _ => rewrite H1 in H2; simplify_eq
         end.

(** Closes an equation between two traces written with [++]. *)
Ltac same_trace :=
  repeat first
    [ progress cbn [globals trace set_global add_event]
    | match goal with
      | Ht : trace ?s = _ |- _ => is_var s; rewrite Ht
      end ];
  rewrite ?calls_app, ?checks_app, ?printed_app, ?reads_app, ?calls_prints,
          ?checks_prints, ?printed_prints, ?reads_prints;
  cbn [calls checks printed reads]; rewrite <- ?app_assoc; cbn [app];
  rewrite ?app_nil_r; reflexivity.

Ltac is_answered :=
  eexists _, _; split_and!;
    [ | | simpl; f_equal; eassumption ]; [same_trace | same_trace].

(** ** The script is straight-line *)

Ltac unfold_script :=
  unfold quickstart, before_filesearch, load_env, chat_completion, sdk_imports,
    init_client, chat, create_and_run_agent, create_and_run_agent_run,
    report_failed_run, create_and_run_agent_finish, log_message,
    create_filesearch_agent, create_filesearch_agent_run, cleanup_resources,
    print_thread_messages, print_message, evaluate_agent_run.

Ltac allowed := simpl; first [done | by auto | by intros; simplify_eq].

Lemma quickstart_straight : straight anything quickstart.
Proof. unfold_script. straighten; exact I. Qed.

Lemma quickstart_documented_reads : straight (emitting documented_read) quickstart.
Proof. unfold_script. straighten; allowed. Qed.

Lemma before_filesearch_straight : straight (not_binding "project") before_filesearch.
Proof. unfold_script. straighten; allowed. Qed.

Lemma create_filesearch_agent_straight :
  straight (emitting hard_coded_model) create_filesearch_agent.
Proof. unfold_script. straighten; allowed. Qed.

(** The script split at line 98. *)
Lemma quickstart_split W st :
  quickstart W st =
  match before_filesearch W st with
  | (Ok _, st1) => (create_filesearch_agent;; evaluate_agent_run) W st1
  | (Raise e, st1) => (Raise e, st1)
  end.
Proof.
  unfold quickstart, before_filesearch, bind.
  destruct (load_env W st) as [[[]|e] st1]; [|done].
  destruct (chat_completion W st1) as [[[]|e] st2]; [|done].
  by destruct (create_and_run_agent W st2) as [[[]|e] st3].
Qed.

Lemma filesearch_needs_project W st :
  globals st !! "project" = None →
  (create_filesearch_agent;; evaluate_agent_run) W st = (Raise (NameError "project"), st).
Proof.
  intros Hp. unfold create_filesearch_agent, create_filesearch_agent_run, dotted, bind, name.
  by rewrite Hp.
Qed.

(** * Unbound names (lines 38 and 98) *)

Lemma preamble_straight : straight (not_binding "os") preamble.
Proof. unfold preamble. unfold_script. straighten; allowed. Qed.

(** The script split at lines 37 and 43. *)
Lemma quickstart_bootstrap W st :
  quickstart W st =
  match preamble W st with
  | (Ok _, st1) =>
      match init_client W st1 with
      | (Ok _, st2) => after_init_client W st2
      | (Raise e, st2) => (Raise e, st2)
      end
  | (Raise e, st1) => (Raise e, st1)
  end.
Proof.
  unfold quickstart, preamble, after_init_client, chat_completion, bind.
  destruct (load_env W st) as [[[]|e] st1]; [|done].
  destruct (sdk_imports W st1) as [[[]|e] st2]; [|done].
  destruct (init_client W st2) as [[[]|e] st3]; [|done].
  by destruct (chat W st3) as [[[]|e] st4].
Qed.

Lemma init_client_needs_os W st :
  globals st !! "os" = None →
  init_client W st = (Raise (NameError "os"), st)
  ∨ (globals st !! "AIProjectClient" = None
     ∧ init_client W st = (Raise (NameError "AIProjectClient"), st)).
Proof.
  intros Hos. unfold init_client, environ, dotted, bind, name.
  destruct (globals st !! "AIProjectClient"); [left | right]; by rewrite ?Hos.
Qed.

(** Before the client is constructed, nothing but [load_dotenv()] is called. *)
Lemma preamble_trace W :
  trace (snd (preamble W fresh)) = []
  ∨ ∃ md ld, modules W "dotenv" = Some md ∧ get_attr md "load_dotenv" = Ok ld
             ∧ trace (snd (preamble W fresh)) = [ECall ld [] []].
Proof.
  unfold preamble, load_env, sdk_imports, bind, import_from, name, call, ret. simpl.
  destruct (modules W "dotenv") as [md|] eqn:Hmd; [|by left].
  destruct (get_attr md "load_dotenv") as [ld|] eqn:Hld; [|by left].
  simpl. rewrite lookup_insert_eq.
  destruct (is_callable ld); [|by left]. simpl.
  right. exists md, ld. split_and!; [done..|].
  repeat case_match; simplify_eq; done.
Qed.

Lemma quickstart_stops_at_bootstrap W :
  ∃ e, quickstart W fresh = (Raise e, snd (preamble W fresh)).
Proof.
  rewrite quickstart_bootstrap.
  pose proof (straight_keeps "os" preamble preamble_straight W fresh (lookup_empty _)) as Hos.
  destruct (preamble W fresh) as [[[]|e] st1]; simpl in *; [|by exists e].
  destruct (init_client_needs_os W st1 Hos) as [-> | [_ ->]]; eauto.
Qed.

(** C1, as the code has it: [os] is never imported and [project] is never
    assigned.  Run as [python quickstart.py], the script always ends in an
    uncaught exception and never calls anything but [load_dotenv()]; when
    lines 24-34 go through, the exception is the [NameError] for [os] raised
    at line 38, with nothing done since; when they do not, it is the
    exception that lines 24-34 raised.  Even when a harness binds [os], the
    script cannot get past line 98: nothing before it assigns [project], so
    the first statement of the file-search section raises the [NameError]
    for [project] before issuing any call. *)
Theorem undefined_names_raise_NameError W :
  (∃ e, fst (quickstart W fresh) = Raise e)
  ∧ (trace (snd (quickstart W fresh)) = []
     ∨ ∃ md ld, modules W "dotenv" = Some md ∧ get_attr md "load_dotenv" = Ok ld
                ∧ trace (snd (quickstart W fresh)) = [ECall ld [] []])
  ∧ (∀ st1, preamble W fresh = (Ok tt, st1) →
       quickstart W fresh = (Raise (NameError "os"), st1))
  ∧ (∀ e st1, preamble W fresh = (Raise e, st1) →
       quickstart W fresh = (Raise e, st1))
  ∧ (∀ g, g !! "project" = None →
       (∃ e, fst (quickstart W (started g)) = Raise e)
       ∧ ∀ st1, before_filesearch W (started g) = (Ok tt, st1) →
           quickstart W (started g) = (Raise (NameError "project"), st1)).
Proof.
  split_and!.
  - destruct (quickstart_stops_at_bootstrap W) as [e ->]. by exists e.
  - destruct (quickstart_stops_at_bootstrap W) as [e ->]. apply preamble_trace.
  - intros st1 Hpre. rewrite quickstart_bootstrap, Hpre.
    pose proof (straight_keeps "os" preamble preamble_straight W fresh (lookup_empty _)) as Hos.
    rewrite Hpre in Hos. simpl in Hos.
    destruct (init_client_needs_os W st1 Hos) as [-> | [Hctor _]]; [done|].
    exfalso. unfold preamble in Hpre. inverted Hpre. normalise Hctor. done.
  - intros e st1 Hpre. by rewrite quickstart_bootstrap, Hpre.
  - intros g Hg. rewrite quickstart_split.
    pose proof (straight_keeps "project" before_filesearch before_filesearch_straight
                  W (started g) Hg) as Hp.
    destruct (before_filesearch W (started g)) as [[[]|e] st1]; simpl in *.
    + rewrite (filesearch_needs_project W st1 Hp). split; [by eexists|].
      by intros ? [= <-].
    + split; [by eexists|]. by intros ? [=].
Qed.

(** On the mocked client the script stops at line 38 after [load_dotenv()],
    and at line 98 when a harness binds [os]; on a machine without the
    imported packages it stops at line 24. *)
Lemma undefined_names_witness :
  quickstart (Mock.mock "completed" "completed") fresh
  = (Raise (NameError "os"), snd (preamble (Mock.mock "completed" "completed") fresh))
  ∧ quickstart Mock.bare fresh
    = (Raise (ModuleNotFoundError "dotenv"), snd (preamble Mock.bare fresh))
  ∧ quickstart (Mock.mock "completed" "completed")
      (started (<["os" := os_module Mock.env]> ∅))
    = (Raise (NameError "project"),
       snd (before_filesearch (Mock.mock "completed" "completed")
              (started (<["os" := os_module Mock.env]> ∅)))).
Proof.
  destruct (undefined_names_raise_NameError (Mock.mock "completed" "completed"))
    as (_ & _ & Hos & _ & Hproject).
  destruct (undefined_names_raise_NameError Mock.bare) as (_ & _ & _ & Himport & _).
  split_and!.
  - apply Hos. reflexivity.
  - apply Himport. reflexivity.
  - apply (Hproject (<["os" := os_module Mock.env]> ∅)); reflexivity.
Defined.

(** C1 as stated fails: on a machine where the [dotenv] package is not
    installed, line 24 raises [ModuleNotFoundError] and the script ends
    there, before line 38 is reached; the exception it ends with is not a
    [NameError]. *)
Lemma missing_package_counterexample :
  quickstart Mock.bare fresh = (Raise (ModuleNotFoundError "dotenv"), fresh)
  ∧ ¬ ∃ x, fst (quickstart Mock.bare fresh) = Raise (NameError x).
Proof.
  split; [reflexivity|].
  intros [x Hx]. vm_compute in Hx. discriminate Hx.
Qed.

(** * The status checks (lines 81 and 117) *)

Lemma snoc_here {A} (l : list A) (c : A) : l ++ [c] = l ++ c :: [].
Proof. done. Qed.

Lemma app_later {A} (l m before after : list A) (c : A) :
  l = before ++ c :: after → l ++ m = before ++ c :: (after ++ m).
Proof. intros ->. by rewrite <- app_assoc. Qed.

(** Splits a trace written with [++] at the event named in the goal. *)
Ltac explicit_trace :=
  repeat first
    [ progress cbn [globals trace set_global add_event]
    | match goal with
      | Ht : trace ?s = _ |- _ => is_var s; rewrite Ht
      end ].

Ltac split_at_event :=
  explicit_trace; repeat first [ apply snoc_here | apply app_later ].

Lemma checks_once_more t before after c :
  t = before ++ c :: after → checks after = [] → checks t = checks before ++ checks [c].
Proof. intros -> Ha. rewrite checks_app. simpl. destruct c; by rewrite ?Ha. Qed.

Lemma no_check_checks ext : Forall no_check ext → checks ext = [].
Proof. induction 1 as [|[] ext Hc _ IH]; simpl; done. Qed.

Lemma straight_no_check {A} (m : M A) W st :
  straight (emitting no_check) m → checks (trace (snd (m W st))) = checks (trace st).
Proof.
  intros Hm. destruct (straight_emits no_check m Hm W st) as (ext & -> & Hext).
  by rewrite checks_app, (no_check_checks ext Hext), app_nil_r.
Qed.

Lemma load_env_no_check : straight (emitting no_check) load_env.
Proof. unfold_script. straighten; allowed. Qed.

Lemma chat_completion_no_check : straight (emitting no_check) chat_completion.
Proof. unfold_script. straighten; allowed. Qed.

Lemma evaluate_agent_run_no_check : straight (emitting no_check) evaluate_agent_run.
Proof. unfold_script. straighten; allowed. Qed.

Ltac bound_global :=
  repeat first
    [ progress cbn [globals trace set_global add_event]
    | rewrite lookup_insert_eq
    | rewrite lookup_insert_ne by discriminate
    | match goal with
      | Hg : only_binds _ _ ?s |- _ => rewrite (Hg _) by discriminate
      end ];
  reflexivity.

Ltac is_reported :=
  cbn [reported];
  first [ eexists _, _, _, _, _; split; [eassumption | same_trace]
        | eexists _, _, _, _; same_trace ].

Ltac checked_once Hrun :=
  inverted Hrun; merge_results;
  (eexists _, _, _, _; split_and!;
   [ bound_global | eassumption | | | | ];
   try match goal with Hcond : eq_str _ _ = _ |- _ => rewrite Hcond end;
   [ split_at_event | same_trace | same_trace | is_reported ]).

Lemma create_and_run_agent_checks W st st' :
  create_and_run_agent W st = (Ok tt, st') → checks_run_once W st st'.
Proof. intros Hrun. checked_once Hrun. Qed.

Lemma create_filesearch_agent_checks W st st' :
  create_filesearch_agent W st = (Ok tt, st') → checks_run_once W st st'.
Proof. intros Hrun. checked_once Hrun. Qed.

Lemma checks_run_once_checks W st st' :
  checks_run_once W st st' →
  ∃ status, checks (trace st') =
            checks (trace st) ++ [ECheck status "failed" (eq_str status "failed")].
Proof.
  intros (run & status & before & after & _ & _ & Ht & Hb & Ha & _).
  exists status. by rewrite (checks_once_more _ _ _ _ Ht Ha), Hb.
Qed.

(** C2, as the code has it: the script tests a run's status against
    ["failed"] twice, not once: at line 81 for the run of the agent-lifecycle
    section and at line 117 for the run of the file-search section.  Each
    section that runs to its end evaluates its check exactly once, on the
    status of its own run, prints the diagnostic exactly on the true branch
    and goes on with the next call; an execution of the whole script that
    runs to its end evaluates these two checks and no other. *)
Theorem two_status_checks W :
  (∀ st st', create_and_run_agent W st = (Ok tt, st') → checks_run_once W st st')
  ∧ (∀ st st', create_filesearch_agent W st = (Ok tt, st') → checks_run_once W st st')
  ∧ (∀ g st', quickstart W (started g) = (Ok tt, st') →
       ∃ status1 status2,
         checks (trace st') =
         [ ECheck status1 "failed" (eq_str status1 "failed");
           ECheck status2 "failed" (eq_str status2 "failed") ]).
Proof.
  split_and!.
  - apply create_and_run_agent_checks.
  - apply create_filesearch_agent_checks.
  - intros g st' Hrun. unfold quickstart in Hrun.
    apply bind_ok in Hrun as ([] & st1 & H1 & Hrun).
    apply bind_ok in Hrun as ([] & st2 & H2 & Hrun).
    apply bind_ok in Hrun as ([] & st3 & H3 & Hrun).
    apply bind_ok in Hrun as ([] & st4 & H4 & H5).
    pose proof (straight_no_check load_env W (started g) load_env_no_check) as C1.
    pose proof (straight_no_check chat_completion W st1 chat_completion_no_check) as C2.
    pose proof (straight_no_check evaluate_agent_run W st4 evaluate_agent_run_no_check) as C5.
    rewrite H1 in C1. rewrite H2 in C2. rewrite H5 in C5. simpl in C1, C2, C5.
    apply create_and_run_agent_checks, checks_run_once_checks in H3 as [status1 C3].
    apply create_filesearch_agent_checks, checks_run_once_checks in H4 as [status2 C4].
    exists status1, status2. by rewrite C5, C4, C3, C2, C1.
Qed.

(** On the mocked client, with a harness binding [os] and [project], the
    script runs to its end and evaluates two checks. *)
Lemma two_status_checks_witness :
  ∃ status1 status2,
    checks (trace (snd (quickstart (Mock.mock "failed" "completed") (started Mock.harness)))) =
    [ ECheck status1 "failed" (eq_str status1 "failed");
      ECheck status2 "failed" (eq_str status2 "failed") ].
Proof.
  destruct (two_status_checks (Mock.mock "failed" "completed")) as (_ & _ & Hall).
  apply (Hall Mock.harness). reflexivity.
Defined.

(** C2 as stated fails: here is an execution that runs to its end and has
    evaluated two conditions, the first true and the second false. *)
Lemma single_check_counterexample :
  fst (quickstart (Mock.mock "failed" "completed") (started Mock.harness)) = Ok tt
  ∧ checks (trace (snd (quickstart (Mock.mock "failed" "completed") (started Mock.harness))))
    = [ ECheck (VStr "failed") "failed" true; ECheck (VStr "completed") "failed" false ]
  ∧ ¬ ∃ c, checks (trace (snd (quickstart (Mock.mock "failed" "completed")
                                  (started Mock.harness)))) = [c].
Proof.
  split_and!; [reflexivity | reflexivity |].
  intros [c Hc]. vm_compute in Hc. discriminate Hc.
Qed.

(** * The agent lifecycle (lines 58-92) *)

(** C3: whenever the agent-lifecycle section runs to its end, the calls it
    issued are, in this order: create agent, create thread, post the user
    message to that thread, create-and-process a run of that agent on that
    thread, list the thread's messages, delete the agent; the thread id and
    the agent id passed are the [id] attributes of the objects that the
    create-thread and create-agent calls returned. *)
Theorem lifecycle_call_order W st st' :
  create_and_run_agent W st = (Ok tt, st') →
  ∃ client f_agent f_thread f_message f_run f_list f_delete os env model agent aid thread tid,
    globals st !! "project_client" = Some client
    ∧ get_path client ["agents"; "create_agent"] = Ok f_agent
    ∧ get_path client ["agents"; "threads"; "create"] = Ok f_thread
    ∧ get_path client ["agents"; "messages"; "create"] = Ok f_message
    ∧ get_path client ["agents"; "runs"; "create_and_process"] = Ok f_run
    ∧ get_path client ["agents"; "messages"; "list"] = Ok f_list
    ∧ get_path client ["agents"; "delete_agent"] = Ok f_delete
    ∧ globals st !! "os" = Some os
    ∧ get_attr os "environ" = Ok env
    ∧ getenv W (trace st) env "MODEL_DEPLOYMENT_NAME" = Ok model
    ∧ let create_agent :=
          ECall f_agent [] [("model", model); ("name", VStr "my-agent");
                            ("instructions", VStr "You are a helpful writing assistant")] in
      let create_thread := ECall f_thread [] [] in
      let post_message :=
          ECall f_message [] [("thread_id", tid); ("role", VStr "user");
                              ("content", VStr "Write me a poem about flowers")] in
      let run := ECall f_run [] [("thread_id", tid); ("agent_id", aid)] in
      let list_messages := ECall f_list [] [("thread_id", tid)] in
      let delete_agent := ECall f_delete [aid] [] in
      calls (trace st') =
        calls (trace st) ++
        [create_agent; create_thread; post_message; run; list_messages; delete_agent]
      ∧ answered W (trace st') (calls (trace st)) create_agent agent
      ∧ get_path agent ["id"] = Ok aid
      ∧ answered W (trace st') (calls (trace st) ++ [create_agent]) create_thread thread
      ∧ get_path thread ["id"] = Ok tid.
Proof.
  intros Hrun. inverted Hrun; merge_results.
  all: do 14 eexists; split_and!; [eassumption..|]; cbv zeta.
  all: split_and!; [same_trace | is_answered | eassumption | is_answered | eassumption].
Qed.

(** The agent-lifecycle section runs to its end on the mocked client. *)
Lemma lifecycle_call_order_witness :
  let W := Mock.mock "failed" "completed" in
  let st := snd ((load_env;; chat_completion) W (started Mock.harness)) in
  ∃ f_agent f_thread f_message f_run f_list f_delete model aid tid,
    calls (trace (snd (create_and_run_agent W st))) =
    calls (trace st) ++
    [ ECall f_agent [] [("model", model); ("name", VStr "my-agent");
                        ("instructions", VStr "You are a helpful writing assistant")];
      ECall f_thread [] [];
      ECall f_message [] [("thread_id", tid); ("role", VStr "user");
                          ("content", VStr "Write me a poem about flowers")];
      ECall f_run [] [("thread_id", tid); ("agent_id", aid)];
      ECall f_list [] [("thread_id", tid)];
      ECall f_delete [aid] [] ].
Proof.
  intros W st.
  destruct (lifecycle_call_order W st (snd (create_and_run_agent W st)) eq_refl)
    as (client & f_agent & f_thread & f_message & f_run & f_list & f_delete & os & env
        & model & agent & aid & thread & tid & _ & _ & _ & _ & _ & _ & _ & _ & _ & _
        & Hcalls & _).
  by exists f_agent, f_thread, f_message, f_run, f_list, f_delete, model, aid, tid.
Defined.

(** * File search (lines 98-127) *)

(** C4: whenever the file-search section runs to its end, the calls it
    issued are, in this order: upload the file, create a vector store over
    the id of the uploaded file, build the file-search tool for the id of
    that vector store, create the agent with the tool's definitions and
    resources attached, create a thread, post the user message, run the
    agent on the thread, and then clean up (delete the vector store, the
    file and the agent, by the ids returned earlier) before listing the
    thread's messages. *)
Theorem filesearch_call_order W st st' :
  create_filesearch_agent W st = (Ok tt, st') →
  ∃ project tool f_upload f_store f_agent f_thread f_message f_run
    f_delete_store f_delete_file f_delete_agent f_list
    file fid vstore vsid search tools resources agent aid thread tid,
    globals st !! "project" = Some project
    ∧ globals st !! "FileSearchTool" = Some tool
    ∧ get_path project ["agents"; "files"; "upload"] = Ok f_upload
    ∧ get_path project ["agents"; "vector_stores"; "create_and_poll"] = Ok f_store
    ∧ get_path project ["agents"; "create_agent"] = Ok f_agent
    ∧ get_path project ["agents"; "threads"; "create"] = Ok f_thread
    ∧ get_path project ["agents"; "messages"; "create"] = Ok f_message
    ∧ get_path project ["agents"; "runs"; "create_and_process"] = Ok f_run
    ∧ get_path project ["agents"; "vector_stores"; "delete"] = Ok f_delete_store
    ∧ get_path project ["agents"; "files"; "delete"] = Ok f_delete_file
    ∧ get_path project ["agents"; "delete_agent"] = Ok f_delete_agent
    ∧ get_path project ["agents"; "messages"; "list"] = Ok f_list
    ∧ let upload :=
          ECall f_upload [] [("file_path", VStr "product_info_1.md");
                             ("purpose", VStr "agents")] in
      let create_store :=
          ECall f_store [] [("file_ids", VList [fid]); ("name", VStr "my_vectorstore")] in
      let make_tool := ECall tool [] [("vector_store_ids", VList [vsid])] in
      let create_agent :=
          ECall f_agent []
            [("model", VStr "gpt-4o"); ("name", VStr "my-assistant");
             ("instructions",
              VStr "You are a helpful assistant and can search information from uploaded files");
             ("tools", tools); ("tool_resources", resources)] in
      let create_thread := ECall f_thread [] [] in
      let post_message :=
          ECall f_message [] [("thread_id", tid); ("role", VStr "user");
                              ("content", VStr "Hello, what Contoso products do you know?")] in
      let run := ECall f_run [] [("thread_id", tid); ("agent_id", aid)] in
      let delete_store := ECall f_delete_store [vsid] [] in
      let delete_file := ECall f_delete_file [] [("file_id", fid)] in
      let delete_agent := ECall f_delete_agent [aid] [] in
      let list_messages := ECall f_list [] [("thread_id", tid)] in
      let earlier := calls (trace st) in
      calls (trace st') =
        earlier ++
        [upload; create_store; make_tool; create_agent; create_thread; post_message; run;
         delete_store; delete_file; delete_agent; list_messages]
      ∧ answered W (trace st') earlier upload file
      ∧ get_path file ["id"] = Ok fid
      ∧ answered W (trace st') (earlier ++ [upload]) create_store vstore
      ∧ get_path vstore ["id"] = Ok vsid
      ∧ answered W (trace st') (earlier ++ [upload; create_store]) make_tool search
      ∧ get_path search ["definitions"] = Ok tools
      ∧ get_path search ["resources"] = Ok resources
      ∧ answered W (trace st') (earlier ++ [upload; create_store; make_tool])
          create_agent agent
      ∧ get_path agent ["id"] = Ok aid
      ∧ answered W (trace st')
          (earlier ++ [upload; create_store; make_tool; create_agent]) create_thread thread
      ∧ get_path thread ["id"] = Ok tid.
Proof.
  intros Hrun. inverted Hrun; merge_results.
  all: do 23 eexists; split_and!; [eassumption..|]; cbv zeta.
  all: split_and!;
    [ same_trace | is_answered | eassumption | is_answered | eassumption
    | is_answered | eassumption | eassumption | is_answered | eassumption
    | is_answered | eassumption ].
Qed.

(** The file-search section runs to its end on the mocked client, once a
    harness has bound [project]. *)
Lemma filesearch_call_order_witness :
  let W := Mock.mock "failed" "completed" in
  let st := snd (before_filesearch W (started Mock.harness)) in
  ∃ f_upload f_store tool f_agent fid vsid tools resources rest,
    calls (trace (snd (create_filesearch_agent W st))) =
    calls (trace st) ++
    [ ECall f_upload [] [("file_path", VStr "product_info_1.md"); ("purpose", VStr "agents")];
      ECall f_store [] [("file_ids", VList [fid]); ("name", VStr "my_vectorstore")];
      ECall tool [] [("vector_store_ids", VList [vsid])];
      ECall f_agent []
        [("model", VStr "gpt-4o"); ("name", VStr "my-assistant");
         ("instructions",
          VStr "You are a helpful assistant and can search information from uploaded files");
         ("tools", tools); ("tool_resources", resources)] ] ++ rest.
Proof.
  intros W st.
  destruct (filesearch_call_order W st (snd (create_filesearch_agent W st)) eq_refl)
    as (project & tool & f_upload & f_store & f_agent & f_thread & f_message & f_run
        & f_delete_store & f_delete_file & f_delete_agent & f_list
        & file & fid & vstore & vsid & search & tools & resources & agent & aid
        & thread & tid & _ & _ & _ & _ & _ & _ & _ & _ & _ & _ & _ & _ & Hcalls & _).
  exists f_upload, f_store, tool, f_agent, fid, vsid, tools, resources.
  eexists. exact Hcalls.
Defined.

Lemma last_four {A} (before after : list A) (a b c d : A) :
  ((((before ++ [a]) ++ [b]) ++ [c]) ++ [d]) ++ after = before ++ [a; b; c; d] ++ after.
Proof. by rewrite <- !app_assoc. Qed.

Lemma snoc_three {A} (before : list A) (a b c : A) :
  before ++ [a; b; c] = ((before ++ [a]) ++ [b]) ++ [c].
Proof. by rewrite <- !app_assoc. Qed.

(** C9: in a file-search section that runs to its end, the last four calls
    are, in this order, the deletion of the vector store, of the uploaded
    file and of the agent, and then the listing of the thread's messages;
    nothing is printed in between, and everything after the listing is the
    printing of the listed text messages. *)
Theorem cleanup_before_listing W st st' :
  create_filesearch_agent W st = (Ok tt, st') →
  ∃ project f_delete_store f_delete_file f_delete_agent f_list
    vstore vsid file fid agent aid thread tid before listing texts items lines,
    globals st !! "project" = Some project
    ∧ get_path project ["agents"; "vector_stores"; "delete"] = Ok f_delete_store
    ∧ get_path project ["agents"; "files"; "delete"] = Ok f_delete_file
    ∧ get_path project ["agents"; "delete_agent"] = Ok f_delete_agent
    ∧ get_path project ["agents"; "messages"; "list"] = Ok f_list
    ∧ globals st' !! "vector_store" = Some vstore ∧ get_path vstore ["id"] = Ok vsid
    ∧ globals st' !! "file" = Some file ∧ get_path file ["id"] = Ok fid
    ∧ globals st' !! "agent" = Some agent ∧ get_path agent ["id"] = Ok aid
    ∧ globals st' !! "thread" = Some thread ∧ get_path thread ["id"] = Ok tid
    ∧ let delete_store := ECall f_delete_store [vsid] [] in
      let delete_file := ECall f_delete_file [] [("file_id", fid)] in
      let delete_agent := ECall f_delete_agent [aid] [] in
      let list_messages := ECall f_list [] [("thread_id", tid)] in
      trace st' =
        before ++ [delete_store; delete_file; delete_agent; list_messages]
        ++ map EPrint lines
      ∧ respond W (before ++ [delete_store; delete_file; delete_agent])
          f_list [] [("thread_id", tid)] = Ok listing
      ∧ get_attr listing "text_messages" = Ok texts
      ∧ iter_items texts = Ok items
      ∧ Forall2 (shown W) items lines.
Proof.
  intros Hrun. inverted Hrun; merge_results.
  all: do 18 eexists; split_and!; [eassumption..| | | | | | | | | ];
    [ bound_global | eassumption | bound_global | eassumption
    | bound_global | eassumption | bound_global | eassumption | ];
    cbv zeta; split_and!;
    [ explicit_trace; apply last_four
    | rewrite snoc_three; eassumption
    | eassumption | eassumption | eassumption ].
Qed.

(** On the mocked client the file-search section ends with the three
    deletions, the listing and the printing of the one listed message. *)
Lemma cleanup_before_listing_witness :
  ∃ f_delete_store f_delete_file f_delete_agent f_list vsid fid aid tid before lines,
    trace (snd (create_filesearch_agent (Mock.mock "failed" "completed")
                  (snd (before_filesearch (Mock.mock "failed" "completed")
                          (started Mock.harness)))))
    = before ++
      [ ECall f_delete_store [vsid] [];
        ECall f_delete_file [] [("file_id", fid)];
        ECall f_delete_agent [aid] [];
        ECall f_list [] [("thread_id", tid)] ] ++ map EPrint lines.
Proof.
  destruct (cleanup_before_listing (Mock.mock "failed" "completed")
              (snd (before_filesearch (Mock.mock "failed" "completed")
                      (started Mock.harness)))
              (snd (create_filesearch_agent (Mock.mock "failed" "completed")
                      (snd (before_filesearch (Mock.mock "failed" "completed")
                              (started Mock.harness)))))
              eq_refl)
    as (project & f_delete_store & f_delete_file & f_delete_agent & f_list
        & vstore & vsid & file & fid & agent & aid & thread & tid & before & listing
        & texts & items & lines & _ & _ & _ & _ & _ & _ & _ & _ & _ & _ & _ & _ & _
        & Htrace & _).
  exists f_delete_store, f_delete_file, f_delete_agent, f_list, vsid, fid, aid, tid,
    before, lines.
  exact Htrace.
Defined.

(** * More on traces *)

(** Closes [calls h = earlier ++ ?pre] for a trace [h] written with [++]. *)
Ltac prefix_of_calls :=
  explicit_trace; rewrite ?calls_app, ?calls_prints; cbn [calls];
  rewrite <- ?app_assoc; cbn [app]; reflexivity.

Ltac answered_within :=
  eexists _, _; split_and!;
    [ | | simpl; f_equal; eassumption ]; [same_trace | prefix_of_calls].

(** Closes an equation between a trace and its decomposition into explicit
    events and printed lines. *)
Ltac events_in_order :=
  explicit_trace; rewrite <- ?app_assoc; cbn [app]; reflexivity.

Lemma no_read_reads ext : Forall no_read ext → reads ext = [].
Proof. induction 1 as [|[] ext Hc _ IH]; simpl; done. Qed.

Lemma model_read_reads ext :
  Forall model_read ext → Forall (λ k, k = "MODEL_DEPLOYMENT_NAME") (reads ext).
Proof. induction 1 as [|[] ext Hc _ IH]; simpl; [done..|]. by constructor. Qed.

Lemma straight_no_read {A} (m : M A) W st :
  straight (emitting no_read) m → reads (trace (snd (m W st))) = reads (trace st).
Proof.
  intros Hm. destruct (straight_emits no_read m Hm W st) as (ext & -> & Hext).
  by rewrite reads_app, (no_read_reads ext Hext), app_nil_r.
Qed.

(** * The model of the file-search agent (line 103) *)

(** *** A computation that never looks at [os] *)

Lemma same_but_os_set x v st1 st2 :
  x ≠ "os" → same_but_os st1 st2 → same_but_os (set_global x v st1) (set_global x v st2).
Proof.
  intros Hx [Ht Hg]. split; [done|]. intros y Hy. simpl.
  destruct (decide (x = y)) as [->|Hxy].
  - by rewrite !lookup_insert_eq.
  - rewrite !lookup_insert_ne by done. by apply Hg.
Qed.

Lemma same_but_os_add e st1 st2 :
  same_but_os st1 st2 → same_but_os (add_event e st1) (add_event e st2).
Proof. intros [Ht Hg]. split; [|done]. simpl. by rewrite Ht. Qed.

Lemma straight_ignoring_os {A} (m : M A) :
  straight ignoring_os m →
  ∀ W st1 st2, same_but_os st1 st2 →
    fst (m W st1) = fst (m W st2) ∧ same_but_os (snd (m W st1)) (snd (m W st2)).
Proof.
  induction 1 as [A a|A r|A B m f _ IHm _ IHf|x Hx|k []|x v Hx|md x Hx
                 |f args kwargs _|v|line _|v s _]; intros W st1 st2 HR; try done.
  - destruct (IHm W st1 st2 HR) as [Hr HR']. unfold bind.
    destruct (m W st1) as [[a|e] st1'], (m W st2) as [[a'|e'] st2'];
      simpl in *; simplify_eq; [by apply IHf | done].
  - destruct HR as [Ht Hg]. unfold name. rewrite (Hg x Hx).
    by destruct (globals st2 !! x).
  - split; [done|]. by apply same_but_os_set.
  - unfold import_from. destruct (modules W md) as [o|]; [|done].
    destruct (get_attr o x); [|done]. split; [done|]. by apply same_but_os_set.
  - unfold call. destruct (is_callable f); [|done]. simpl.
    split; [by destruct HR as [-> _] | by apply same_but_os_add].
  - split; [done|]. by apply same_but_os_add.
  - split; [done|]. by apply same_but_os_add.
Qed.

Lemma create_filesearch_agent_ignores_os : straight ignoring_os create_filesearch_agent.
Proof. unfold_script. straighten; allowed. Qed.

Lemma create_filesearch_agent_no_read : straight (emitting no_read) create_filesearch_agent.
Proof. unfold_script. straighten; allowed. Qed.

Ltac without_model := repeat constructor.

(** The agent of a complete file-search section was created with the
    literal model, by the only call of the section that passes a model. *)
Lemma create_filesearch_agent_model W st st' :
  create_filesearch_agent W st = (Ok tt, st') →
  ∃ project f_agent tools resources agent pre after,
    globals st !! "project" = Some project
    ∧ get_path project ["agents"; "create_agent"] = Ok f_agent
    ∧ let create_agent :=
          ECall f_agent []
            [("model", VStr "gpt-4o"); ("name", VStr "my-assistant");
             ("instructions",
              VStr "You are a helpful assistant and can search information from uploaded files");
             ("tools", tools); ("tool_resources", resources)] in
      answered W (trace st') (calls (trace st) ++ pre) create_agent agent
      ∧ globals st' !! "agent" = Some agent
      ∧ calls (trace st') = calls (trace st) ++ pre ++ create_agent :: after
      ∧ Forall no_model pre
      ∧ Forall no_model after.
Proof.
  intros Hrun. inverted Hrun; merge_results.
  all: do 7 eexists; split_and!; [eassumption | eassumption |]; cbv zeta.
  all: split_and!; [answered_within | bound_global | same_trace | without_model..].
Qed.

(** C10: whatever happens in the file-search section, every call that is
    given a [model] is given the literal ["gpt-4o"] and the environment is
    not read at all; when the section runs to its end, its agent is the
    answer to a call of [project.agents.create_agent] that passes that
    literal, and no other call of the section passes a model; and the
    section never looks at [os], so what it does is the same whatever [os]
    is bound to. *)
Theorem filesearch_model_hard_coded W :
  (∀ st, ∃ ext, trace (snd (create_filesearch_agent W st)) = trace st ++ ext
                ∧ Forall hard_coded_model ext
                ∧ reads ext = [])
  ∧ (∀ st st', create_filesearch_agent W st = (Ok tt, st') →
       ∃ project f_agent tools resources agent pre after,
         globals st !! "project" = Some project
         ∧ get_path project ["agents"; "create_agent"] = Ok f_agent
         ∧ let create_agent :=
               ECall f_agent []
                 [("model", VStr "gpt-4o"); ("name", VStr "my-assistant");
                  ("instructions",
                   VStr "You are a helpful assistant and can search information from uploaded files");
                  ("tools", tools); ("tool_resources", resources)] in
           answered W (trace st') (calls (trace st) ++ pre) create_agent agent
           ∧ globals st' !! "agent" = Some agent
           ∧ calls (trace st') = calls (trace st) ++ pre ++ create_agent :: after
           ∧ Forall no_model pre
           ∧ Forall no_model after)
  ∧ (∀ st1 st2, same_but_os st1 st2 →
       fst (create_filesearch_agent W st1) = fst (create_filesearch_agent W st2)
       ∧ trace (snd (create_filesearch_agent W st1))
         = trace (snd (create_filesearch_agent W st2))).
Proof.
  split_and!.
  - intros st.
    destruct (straight_emits _ _ create_filesearch_agent_straight W st) as (ext & Ht & Hm).
    destruct (straight_emits _ _ create_filesearch_agent_no_read W st) as (ext' & Ht' & Hr).
    rewrite Ht in Ht'. apply app_inv_head in Ht' as <-.
    exists ext. split_and!; [done | done | by apply no_read_reads].
  - apply create_filesearch_agent_model.
  - intros st1 st2 HR.
    destruct (straight_ignoring_os _ create_filesearch_agent_ignores_os W st1 st2 HR)
      as [Hr [Ht _]]. done.
Qed.

(** On the mocked client, whose environment sets [MODEL_DEPLOYMENT_NAME] to
    ["gpt-4o-mini"], the file-search section runs to its end and its agent
    is created with ["gpt-4o"]; and the section behaves the same when the
    harness binds [os] to something else. *)
Lemma filesearch_model_hard_coded_witness :
  let W := Mock.mock "failed" "completed" in
  let st := snd (before_filesearch W (started Mock.harness)) in
  getenv W (trace st) (VDict Mock.env) "MODEL_DEPLOYMENT_NAME" = Ok (VStr "gpt-4o-mini")
  ∧ (∃ project f_agent tools resources agent pre after,
       globals st !! "project" = Some project
       ∧ get_path project ["agents"; "create_agent"] = Ok f_agent
       ∧ globals (snd (create_filesearch_agent W st)) !! "agent" = Some agent
       ∧ calls (trace (snd (create_filesearch_agent W st))) =
         calls (trace st) ++ pre ++
         ECall f_agent []
           [("model", VStr "gpt-4o"); ("name", VStr "my-assistant");
            ("instructions",
             VStr "You are a helpful assistant and can search information from uploaded files");
            ("tools", tools); ("tool_resources", resources)] :: after)
  ∧ fst (create_filesearch_agent W (set_global "os" VNone st))
    = fst (create_filesearch_agent W st)
  ∧ trace (snd (create_filesearch_agent W (set_global "os" VNone st)))
    = trace (snd (create_filesearch_agent W st)).
Proof.
  intros W st.
  destruct (filesearch_model_hard_coded W) as (_ & Hdone & Hos).
  split; [reflexivity|]. split.
  - destruct (Hdone st (snd (create_filesearch_agent W st)) eq_refl)
      as (project & f_agent & tools & resources & agent & pre & after
          & Hp & Hf & _ & Hagent & Hcalls & _).
    exists project, f_agent, tools, resources, agent, pre, after.
    exact (conj Hp (conj Hf (conj Hagent Hcalls))).
  - apply Hos. split; [reflexivity|].
    intros x Hx. simpl. by rewrite lookup_insert_ne.
Defined.

(** * A failed run does not stop the script (lines 81-92 and 117-142) *)

Lemma report_failed_run_failed W st run err :
  globals st !! "run" = Some run →
  get_path run ["status"] = Ok (VStr "failed") →
  get_path run ["last_error"] = Ok err →
  report_failed_run W st = (Ok tt, after_report W err st).
Proof.
  intros Hrun Hstatus Herr.
  unfold report_failed_run, dotted, bind, name, lift, test_eq, str, print.
  rewrite Hrun, Hstatus. cbn [eq_str]. simpl (String.eqb _ _).
  cbn [globals add_event]. by rewrite Hrun, Herr.
Qed.

Lemma report_failed_run_other W st run status :
  globals st !! "run" = Some run →
  get_path run ["status"] = Ok status →
  eq_str status "failed" = false →
  report_failed_run W st = (Ok tt, add_event (ECheck status "failed" false) st).
Proof.
  intros Hrun Hstatus Hcond.
  unfold report_failed_run, dotted, bind, name, lift, test_eq, ret.
  by rewrite Hrun, Hstatus, Hcond.
Qed.

Lemma bind_dotted_found {A} x path (k : value → M A) W st o v :
  globals st !! x = Some o → get_path o path = Ok v →
  bind (dotted x path) k W st = k v W st.
Proof. intros Ho Hv. unfold dotted, bind, name, lift. by rewrite Ho, Hv. Qed.

Lemma bind_call_first {A} f args kwargs (k : value → M A) W st :
  is_callable f = true → (∀ v, straight anything (k v)) →
  ∃ rest, trace (snd (bind (call f args kwargs) k W st))
          = trace st ++ ECall f args kwargs :: rest.
Proof.
  intros Hf Hk. unfold bind, call. rewrite Hf.
  destruct (respond W (trace st) f args kwargs) as [v|e]; [|by exists []].
  destruct (straight_extends (k v) (Hk v) W (add_event (ECall f args kwargs) st))
    as [rest ->].
  exists rest. simpl. by rewrite <- app_assoc.
Qed.

Lemma bind_first {A B} (m : M A) (k : A → M B) W st c rest :
  trace (snd (m W st)) = trace st ++ c :: rest → (∀ a, straight anything (k a)) →
  ∃ rest', trace (snd (bind m k W st)) = trace st ++ c :: rest'.
Proof.
  intros Hm Hk. unfold bind. destruct (m W st) as [[a|e] st1]; simpl in *; [|by exists rest].
  destruct (straight_extends (k a) (Hk a) W st1) as [ext ->].
  exists (rest ++ ext). by rewrite Hm, <- app_assoc.
Qed.

Lemma create_and_run_agent_finish_lists W st client f_list thread tid :
  globals st !! "project_client" = Some client →
  get_path client ["agents"; "messages"; "list"] = Ok f_list →
  is_callable f_list = true →
  globals st !! "thread" = Some thread →
  get_path thread ["id"] = Ok tid →
  ∃ rest, trace (snd (create_and_run_agent_finish W st))
          = trace st ++ ECall f_list [] [("thread_id", tid)] :: rest.
Proof.
  intros Hc Hf Hcall Ht Htid. unfold create_and_run_agent_finish.
  rewrite (bind_dotted_found _ _ _ W st client f_list Hc Hf).
  rewrite (bind_dotted_found _ _ _ W st thread tid Ht Htid).
  apply bind_call_first; [done|]. intros v. unfold_script. straighten; exact I.
Qed.

Lemma after_filesearch_check_deletes W st project f_delete vstore vsid :
  globals st !! "project" = Some project →
  get_path project ["agents"; "vector_stores"; "delete"] = Ok f_delete →
  is_callable f_delete = true →
  globals st !! "vector_store" = Some vstore →
  get_path vstore ["id"] = Ok vsid →
  ∃ rest, trace (snd (after_filesearch_check W st))
          = trace st ++ ECall f_delete [vsid] [] :: rest.
Proof.
  intros Hp Hf Hcall Hv Hvsid. unfold after_filesearch_check.
  assert (∃ rest, trace (snd (cleanup_resources W st))
                  = trace st ++ ECall f_delete [vsid] [] :: rest) as [rest Hrest].
  { unfold cleanup_resources.
    rewrite (bind_dotted_found _ _ _ W st project f_delete Hp Hf).
    rewrite (bind_dotted_found _ _ _ W st vstore vsid Hv Hvsid).
    apply bind_call_first; [done|]. intros v. straighten; exact I. }
  eapply bind_first; [done|]. intros _. unfold_script. straighten; exact I.
Qed.

(** What lines 86-92 do when they run to their end. *)
Lemma create_and_run_agent_finish_trace W st st' :
  create_and_run_agent_finish W st = (Ok tt, st') →
  ∃ client f_list f_delete thread tid agent aid listing items lines,
    globals st !! "project_client" = Some client
    ∧ get_path client ["agents"; "messages"; "list"] = Ok f_list
    ∧ get_path client ["agents"; "delete_agent"] = Ok f_delete
    ∧ globals st !! "thread" = Some thread ∧ get_path thread ["id"] = Ok tid
    ∧ globals st !! "agent" = Some agent ∧ get_path agent ["id"] = Ok aid
    ∧ respond W (trace st) f_list [] [("thread_id", tid)] = Ok listing
    ∧ iter_items listing = Ok items
    ∧ Forall2 (logged W) items lines
    ∧ trace st' =
      trace st ++ ECall f_list [] [("thread_id", tid)] :: map EPrint lines
      ++ [ECall f_delete [aid] []; EPrint "Deleted agent"].
Proof.
  intros Hrun. inverted Hrun; merge_results.
  do 10 eexists; split_and!; [eassumption..|events_in_order].
Qed.

(** What lines 121-142 do when they run to their end. *)
Lemma after_filesearch_check_trace W st st' :
  after_filesearch_check W st = (Ok tt, st') →
  ∃ (project f_delete_store f_delete_file f_delete_agent f_list f_evaluate
     vstore vsid file fid agent aid thread tid run rid md ids evaluator
     listing texts evaluation f_wait f_output output : value)
    (items : list value) (lines : list string),
    globals st !! "project" = Some project
    ∧ get_path project ["agents"; "vector_stores"; "delete"] = Ok f_delete_store
    ∧ get_path project ["agents"; "files"; "delete"] = Ok f_delete_file
    ∧ get_path project ["agents"; "delete_agent"] = Ok f_delete_agent
    ∧ get_path project ["agents"; "messages"; "list"] = Ok f_list
    ∧ get_path project ["evaluation"; "create_agent_evaluation"] = Ok f_evaluate
    ∧ globals st !! "vector_store" = Some vstore ∧ get_path vstore ["id"] = Ok vsid
    ∧ globals st !! "file" = Some file ∧ get_path file ["id"] = Ok fid
    ∧ globals st !! "agent" = Some agent ∧ get_path agent ["id"] = Ok aid
    ∧ globals st !! "thread" = Some thread ∧ get_path thread ["id"] = Ok tid
    ∧ globals st !! "run" = Some run ∧ get_path run ["id"] = Ok rid
    ∧ modules W "azure.ai.projects" = Some md
    ∧ get_attr md "EvaluatorIds" = Ok ids
    ∧ get_path ids ["AGENT_QUALITY_EVALUATOR"] = Ok evaluator
    ∧ get_attr listing "text_messages" = Ok texts
    ∧ iter_items texts = Ok items
    ∧ Forall2 (shown W) items lines
    ∧ globals st' !! "result" = Some evaluation
    ∧ get_path evaluation ["wait_for_completion"] = Ok f_wait
    ∧ get_path evaluation ["output"] = Ok f_output
    ∧ let delete_store := ECall f_delete_store [vsid] [] in
      let delete_file := ECall f_delete_file [] [("file_id", fid)] in
      let delete_agent := ECall f_delete_agent [aid] [] in
      let list_messages := ECall f_list [] [("thread_id", tid)] in
      let evaluate :=
          ECall f_evaluate [] [("thread", tid); ("run", rid);
                               ("evaluators", VList [evaluator])] in
      respond W (trace st ++ [delete_store; delete_file; delete_agent])
        f_list [] [("thread_id", tid)] = Ok listing
      ∧ respond W (trace st ++ [delete_store; delete_file; delete_agent; list_messages]
                   ++ map EPrint lines)
          f_evaluate [] [("thread", tid); ("run", rid); ("evaluators", VList [evaluator])]
        = Ok evaluation
      ∧ respond W (trace st ++ [delete_store; delete_file; delete_agent; list_messages]
                   ++ map EPrint lines ++ [evaluate; ECall f_wait [] []])
          f_output [] [] = Ok output
      ∧ trace st' =
        trace st ++ [delete_store; delete_file; delete_agent; list_messages]
        ++ map EPrint lines
        ++ [evaluate; ECall f_wait [] []; ECall f_output [] []; EPrint (py_str W output)].
Proof.
  intros Hrun. unfold after_filesearch_check in Hrun. inverted Hrun; merge_results.
  do 27 eexists; split_and!;
    [ eassumption | eassumption | eassumption | eassumption | eassumption | eassumption
    | eassumption | eassumption | eassumption | eassumption | eassumption | eassumption
    | eassumption | eassumption | eassumption | eassumption
    | eassumption | eassumption | eassumption
    | eassumption | eassumption | eassumption
    | bound_global | eassumption | eassumption | ];
    cbv zeta; split_and!.
  all: try events_in_order.
  all: repeat match goal with
              | H : respond _ _ _ _ _ = _ |- _ =>
                  progress (rewrite <- ?app_assoc in H; cbn [app] in H)
              end.
  all: eassumption.
Qed.

(** C8: a run that finished with status ["failed"] only makes the script
    print the run's [last_error].  In the agent-lifecycle section the script
    then goes on with exactly the code it runs after a successful run
    (lines 86-92), whose first action is to list the thread's messages; in
    the file-search section it goes on with the clean-up, the listing and
    the evaluation (lines 121-142), whose first action is to delete the
    vector store.  When the script runs on to the end of the section, what
    it has done after the failed run is, in this order: the check, the
    diagnostic line, the listing of the thread's messages, one printed line
    per message and the deletion of the agent (agent lifecycle); the check,
    the diagnostic line, the deletion of the vector store, of the file and
    of the agent, the listing, one printed line per text message, the
    request for the evaluation of that thread and run, the wait for its
    completion, the retrieval of its output and the printing of it
    (file search and evaluation). *)
Theorem failed_run_does_not_stop W :
  (∀ st st1 run err,
     create_and_run_agent_run W st = (Ok tt, st1) →
     globals st1 !! "run" = Some run →
     get_path run ["status"] = Ok (VStr "failed") →
     get_path run ["last_error"] = Ok err →
     create_and_run_agent W st = create_and_run_agent_finish W (after_report W err st1))
  ∧ (∀ st st1 run status,
     create_and_run_agent_run W st = (Ok tt, st1) →
     globals st1 !! "run" = Some run →
     get_path run ["status"] = Ok status →
     eq_str status "failed" = false →
     create_and_run_agent W st
     = create_and_run_agent_finish W (add_event (ECheck status "failed" false) st1))
  ∧ (∀ st client f_list thread tid,
     globals st !! "project_client" = Some client →
     get_path client ["agents"; "messages"; "list"] = Ok f_list →
     is_callable f_list = true →
     globals st !! "thread" = Some thread →
     get_path thread ["id"] = Ok tid →
     ∃ rest, trace (snd (create_and_run_agent_finish W st))
             = trace st ++ ECall f_list [] [("thread_id", tid)] :: rest)
  ∧ (∀ st st1 run err,
     create_filesearch_agent_run W st = (Ok tt, st1) →
     globals st1 !! "run" = Some run →
     get_path run ["status"] = Ok (VStr "failed") →
     get_path run ["last_error"] = Ok err →
     (create_filesearch_agent;; evaluate_agent_run) W st
     = after_filesearch_check W (after_report W err st1))
  ∧ (∀ st st1 run status,
     create_filesearch_agent_run W st = (Ok tt, st1) →
     globals st1 !! "run" = Some run →
     get_path run ["status"] = Ok status →
     eq_str status "failed" = false →
     (create_filesearch_agent;; evaluate_agent_run) W st
     = after_filesearch_check W (add_event (ECheck status "failed" false) st1))
  ∧ (∀ st project f_delete vstore vsid,
     globals st !! "project" = Some project →
     get_path project ["agents"; "vector_stores"; "delete"] = Ok f_delete →
     is_callable f_delete = true →
     globals st !! "vector_store" = Some vstore →
     get_path vstore ["id"] = Ok vsid →
     ∃ rest, trace (snd (after_filesearch_check W st))
             = trace st ++ ECall f_delete [vsid] [] :: rest)
  ∧ (∀ st st1 st' run err,
     create_and_run_agent_run W st = (Ok tt, st1) →
     globals st1 !! "run" = Some run →
     get_path run ["status"] = Ok (VStr "failed") →
     get_path run ["last_error"] = Ok err →
     create_and_run_agent W st = (Ok tt, st') →
     ∃ client f_list f_delete thread tid agent aid listing items lines,
       globals st1 !! "project_client" = Some client
       ∧ get_path client ["agents"; "messages"; "list"] = Ok f_list
       ∧ get_path client ["agents"; "delete_agent"] = Ok f_delete
       ∧ globals st1 !! "thread" = Some thread ∧ get_path thread ["id"] = Ok tid
       ∧ globals st1 !! "agent" = Some agent ∧ get_path agent ["id"] = Ok aid
       ∧ respond W (trace (after_report W err st1)) f_list [] [("thread_id", tid)]
         = Ok listing
       ∧ iter_items listing = Ok items
       ∧ Forall2 (logged W) items lines
       ∧ trace st' =
         trace st1 ++
         [ ECheck (VStr "failed") "failed" true;
           EPrint ("Run failed: " +:+ py_str W err);
           ECall f_list [] [("thread_id", tid)] ]
         ++ map EPrint lines
         ++ [ECall f_delete [aid] []; EPrint "Deleted agent"])
  ∧ (∀ st st1 st' run err,
     create_filesearch_agent_run W st = (Ok tt, st1) →
     globals st1 !! "run" = Some run →
     get_path run ["status"] = Ok (VStr "failed") →
     get_path run ["last_error"] = Ok err →
     (create_filesearch_agent;; evaluate_agent_run) W st = (Ok tt, st') →
     ∃ (project f_delete_store f_delete_file f_delete_agent f_list f_evaluate
        vstore vsid file fid agent aid thread tid rid md ids evaluator
        evaluation f_wait f_output output : value) (lines : list string),
       globals st1 !! "project" = Some project
       ∧ get_path project ["agents"; "vector_stores"; "delete"] = Ok f_delete_store
       ∧ get_path project ["agents"; "files"; "delete"] = Ok f_delete_file
       ∧ get_path project ["agents"; "delete_agent"] = Ok f_delete_agent
       ∧ get_path project ["agents"; "messages"; "list"] = Ok f_list
       ∧ get_path project ["evaluation"; "create_agent_evaluation"] = Ok f_evaluate
       ∧ globals st1 !! "vector_store" = Some vstore ∧ get_path vstore ["id"] = Ok vsid
       ∧ globals st1 !! "file" = Some file ∧ get_path file ["id"] = Ok fid
       ∧ globals st1 !! "agent" = Some agent ∧ get_path agent ["id"] = Ok aid
       ∧ globals st1 !! "thread" = Some thread ∧ get_path thread ["id"] = Ok tid
       ∧ get_path run ["id"] = Ok rid
       ∧ modules W "azure.ai.projects" = Some md
       ∧ get_attr md "EvaluatorIds" = Ok ids
       ∧ get_path ids ["AGENT_QUALITY_EVALUATOR"] = Ok evaluator
       ∧ globals st' !! "result" = Some evaluation
       ∧ get_path evaluation ["wait_for_completion"] = Ok f_wait
       ∧ get_path evaluation ["output"] = Ok f_output
       ∧ let delete_store := ECall f_delete_store [vsid] [] in
         let delete_file := ECall f_delete_file [] [("file_id", fid)] in
         let delete_agent := ECall f_delete_agent [aid] [] in
         let list_messages := ECall f_list [] [("thread_id", tid)] in
         let evaluate :=
             ECall f_evaluate [] [("thread", tid); ("run", rid);
                                  ("evaluators", VList [evaluator])] in
         let reported := trace (after_report W err st1) in
         respond W (reported ++ [delete_store; delete_file; delete_agent; list_messages]
                    ++ map EPrint lines)
           f_evaluate [] [("thread", tid); ("run", rid); ("evaluators", VList [evaluator])]
         = Ok evaluation
         ∧ respond W (reported ++ [delete_store; delete_file; delete_agent; list_messages]
                      ++ map EPrint lines ++ [evaluate; ECall f_wait [] []])
             f_output [] [] = Ok output
         ∧ trace st' =
           trace st1 ++
           [ ECheck (VStr "failed") "failed" true;
             EPrint ("Run failed: " +:+ py_str W err);
             delete_store; delete_file; delete_agent; list_messages ]
           ++ map EPrint lines
           ++ [evaluate; ECall f_wait [] []; ECall f_output [] []; EPrint (py_str W output)]).
Proof.
  split_and!.
  - intros st st1 run err Hrun Hr Hs He. unfold create_and_run_agent, bind.
    by rewrite Hrun, (report_failed_run_failed W st1 run err Hr Hs He).
  - intros st st1 run status Hrun Hr Hs Hc. unfold create_and_run_agent, bind.
    by rewrite Hrun, (report_failed_run_other W st1 run status Hr Hs Hc).
  - apply create_and_run_agent_finish_lists.
  - intros st st1 run err Hrun Hr Hs He.
    unfold create_filesearch_agent, after_filesearch_check, bind.
    rewrite Hrun, (report_failed_run_failed W st1 run err Hr Hs He).
    destruct (cleanup_resources W _) as [[[]|e] st2]; [|done].
    by destruct (print_thread_messages W st2) as [[[]|e] st3].
  - intros st st1 run status Hrun Hr Hs Hc.
    unfold create_filesearch_agent, after_filesearch_check, bind.
    rewrite Hrun, (report_failed_run_other W st1 run status Hr Hs Hc).
    destruct (cleanup_resources W _) as [[[]|e] st2]; [|done].
    by destruct (print_thread_messages W st2) as [[[]|e] st3].
  - apply after_filesearch_check_deletes.
  - intros st st1 st' run err Hrun Hr Hs He Hall.
    unfold create_and_run_agent, bind in Hall.
    rewrite Hrun, (report_failed_run_failed W st1 run err Hr Hs He) in Hall.
    apply create_and_run_agent_finish_trace in Hall
      as (client & f_list & f_delete & thread & tid & agent & aid & listing & items & lines
          & Hc & Hl & Hd & Ht & Htid & Ha & Haid & Hlisting & Hitems & Hlines & Htrace).
    exists client, f_list, f_delete, thread, tid, agent, aid, listing, items, lines.
    split_and!; [done..|].
    rewrite Htrace. unfold after_report. cbn [trace add_event].
    by rewrite <- !app_assoc.
  - intros st st1 st' run err Hrun Hr Hs He Hall.
    assert (after_filesearch_check W (after_report W err st1) = (Ok tt, st')) as Hrest.
    { rewrite <- Hall. unfold create_filesearch_agent, after_filesearch_check, bind.
      rewrite Hrun, (report_failed_run_failed W st1 run err Hr Hs He).
      destruct (cleanup_resources W _) as [[[]|e] st2]; [|done].
      by destruct (print_thread_messages W st2) as [[[]|e] st3]. }
    apply after_filesearch_check_trace in Hrest
      as (project & f_delete_store & f_delete_file & f_delete_agent & f_list & f_evaluate
          & vstore & vsid & file & fid & agent & aid & thread & tid & run' & rid & md & ids
          & evaluator & listing & texts & evaluation & f_wait & f_output & output
          & items & lines & Hp & ? & ? & ? & ? & ? & ? & ? & ? & ? & ? & ? & ? & ? & Hr' & ?
          & ? & ? & ? & _ & _ & _ & ? & ? & ? & _ & Hev & Hout & Htrace).
    assert (run' = run) as -> by (cbn [after_report globals add_event] in Hr'; congruence).
    exists project, f_delete_store, f_delete_file, f_delete_agent, f_list, f_evaluate,
      vstore, vsid, file, fid, agent, aid, thread, tid, rid, md, ids, evaluator,
      evaluation, f_wait, f_output, output, lines.
    split_and!; [done..|]. cbv zeta. split_and!; [done | done |].
    rewrite Htrace. unfold after_report. cbn [trace add_event].
    by rewrite <- !app_assoc.
Qed.

(** On the mocked client both runs fail, and the script still lists the
    messages, deletes the agent, cleans up and evaluates; with runs that
    succeed it goes on with the same code. *)
Lemma failed_run_does_not_stop_witness :
  let W := Mock.mock "failed" "failed" in
  let V := Mock.mock "completed" "completed" in
  let st := snd ((load_env;; chat_completion) W (started Mock.harness)) in
  let st1 := snd (create_and_run_agent_run W st) in
  let st' := snd (before_filesearch W (started Mock.harness)) in
  let st1' := snd (create_filesearch_agent_run W st') in
  let sv := snd ((load_env;; chat_completion) V (started Mock.harness)) in
  let sv1 := snd (create_and_run_agent_run V sv) in
  let sv' := snd (before_filesearch V (started Mock.harness)) in
  let sv1' := snd (create_filesearch_agent_run V sv') in
  create_and_run_agent W st
  = create_and_run_agent_finish W (after_report W (VStr "rate_limit_exceeded") st1)
  ∧ create_and_run_agent V sv
    = create_and_run_agent_finish V (add_event (ECheck (VStr "completed") "failed" false) sv1)
  ∧ (∃ rest, trace (snd (create_and_run_agent_finish W
                           (after_report W (VStr "rate_limit_exceeded") st1)))
             = trace (after_report W (VStr "rate_limit_exceeded") st1)
               ++ ECall (Mock.fn "agents.messages.list") [] [("thread_id", VStr "thread_1")]
               :: rest)
  ∧ (create_filesearch_agent;; evaluate_agent_run) W st'
    = after_filesearch_check W (after_report W (VStr "rate_limit_exceeded") st1')
  ∧ (create_filesearch_agent;; evaluate_agent_run) V sv'
    = after_filesearch_check V (add_event (ECheck (VStr "completed") "failed" false) sv1')
  ∧ (∃ rest, trace (snd (after_filesearch_check W
                           (after_report W (VStr "rate_limit_exceeded") st1')))
             = trace (after_report W (VStr "rate_limit_exceeded") st1')
               ++ ECall (Mock.fn "agents.vector_stores.delete") [VStr "vs_1"] [] :: rest)
  ∧ (∃ f_list f_delete tid aid lines,
       trace (snd (create_and_run_agent W st)) =
       trace st1 ++
       [ ECheck (VStr "failed") "failed" true;
         EPrint ("Run failed: " +:+ py_str W (VStr "rate_limit_exceeded"));
         ECall f_list [] [("thread_id", tid)] ]
       ++ map EPrint lines
       ++ [ECall f_delete [aid] []; EPrint "Deleted agent"])
  ∧ (∃ f_delete_store f_delete_file f_delete_agent f_list f_evaluate f_wait f_output
       vsid fid aid tid rid evaluator output lines,
       trace (snd ((create_filesearch_agent;; evaluate_agent_run) W st')) =
       trace st1' ++
       [ ECheck (VStr "failed") "failed" true;
         EPrint ("Run failed: " +:+ py_str W (VStr "rate_limit_exceeded"));
         ECall f_delete_store [vsid] [];
         ECall f_delete_file [] [("file_id", fid)];
         ECall f_delete_agent [aid] [];
         ECall f_list [] [("thread_id", tid)] ]
       ++ map EPrint lines
       ++ [ ECall f_evaluate [] [("thread", tid); ("run", rid);
                                 ("evaluators", VList [evaluator])];
            ECall f_wait [] []; ECall f_output [] []; EPrint (py_str W output) ]).
Proof.
  intros W V st st1 st' st1' sv sv1 sv' sv1'.
  destruct (failed_run_does_not_stop W) as (H1 & _ & H3 & H4 & _ & H6 & H7 & H8).
  destruct (failed_run_does_not_stop V) as (_ & H2 & _ & _ & H5 & _).
  split_and!.
  - by eapply H1.
  - by eapply H2.
  - by eapply H3.
  - by eapply H4.
  - by eapply H5.
  - by eapply H6.
  - edestruct (H7 st st1 (snd (create_and_run_agent W st)))
      as (client & f_list & f_delete & thread & tid & agent & aid & listing & items & lines
          & _ & _ & _ & _ & _ & _ & _ & _ & _ & _ & Htrace); [reflexivity..|].
    exists f_list, f_delete, tid, aid, lines. exact Htrace.
  - edestruct (H8 st' st1' (snd ((create_filesearch_agent;; evaluate_agent_run) W st')))
      as (project & f_delete_store & f_delete_file & f_delete_agent & f_list & f_evaluate
          & vstore & vsid & file & fid & agent & aid & thread & tid & rid & md & ids
          & evaluator & evaluation & f_wait & f_output & output & lines
          & _ & _ & _ & _ & _ & _ & _ & _ & _ & _ & _ & _ & _ & _ & _ & _ & _ & _ & _ & _
          & _ & _ & _ & Htrace); [reflexivity..|].
    exists f_delete_store, f_delete_file, f_delete_agent, f_list, f_evaluate, f_wait,
      f_output, vsid, fid, aid, tid, rid, evaluator, output, lines.
    exact Htrace.
Defined.

(** * The environment (lines 38, 45 and 59) *)

Lemma load_env_no_read : straight (emitting no_read) load_env.
Proof. unfold_script. straighten; allowed. Qed.

Lemma preamble_no_read : straight (emitting no_read) preamble.
Proof. unfold preamble. unfold_script. straighten; allowed. Qed.

Lemma evaluate_agent_run_no_read : straight (emitting no_read) evaluate_agent_run.
Proof. unfold_script. straighten; allowed. Qed.

Lemma after_init_client_model_read : straight (emitting model_read) after_init_client.
Proof. unfold after_init_client. unfold_script. straighten; allowed. Qed.

(** Line 38 is the only read of lines 37-40, and everything else there
    comes after it. *)
Lemma init_client_reads W st :
  ∃ ext, trace (snd (init_client W st)) = trace st ++ ext
         ∧ (reads ext = [] ∨ reads ext = ["PROJECT_ENDPOINT"]).
Proof.
  unfold init_client. unfold bind at 1. unfold name at 1.
  destruct (globals st !! "AIProjectClient") as [ctor|];
    [|exists []; by rewrite app_nil_r; split; [|left]].
  unfold bind at 1. rewrite environ_unfold.
  destruct (environ_mapping st) as [mapping|e];
    [|exists []; by rewrite app_nil_r; split; [|left]].
  destruct (getenv W (trace st) mapping "PROJECT_ENDPOINT") as [endpoint|e];
    [|exists [ERead mapping "PROJECT_ENDPOINT"]; by split; [|right]].
  match goal with
  | |- context [snd (?k W (add_event ?e st))] =>
      destruct (straight_emits no_read k) with (W := W) (st := add_event e st)
        as (ext & Ht & Hext)
  end.
  { straighten; allowed. }
  exists (ERead mapping "PROJECT_ENDPOINT" :: ext). split.
  - rewrite Ht. simpl. by rewrite <- app_assoc.
  - right. simpl. by rewrite (no_read_reads ext Hext).
Qed.

(** The client is not constructed without that read. *)
Lemma init_client_read_once W st st' :
  init_client W st = (Ok tt, st') →
  reads (trace st') = reads (trace st) ++ ["PROJECT_ENDPOINT"].
Proof. intros Hrun. inverted Hrun. same_trace. Qed.

(** What lines 32-53 do when they run to their end. *)
Lemma chat_completion_trace W st st' :
  chat_completion W st = (Ok tt, st') →
  ∃ (os env md1 ctor md2 cred_ctor cred client f_openai oa f_chat endpoint model
     : value) (line : string),
    globals st !! "os" = Some os
    ∧ get_attr os "environ" = Ok env
    ∧ modules W "azure.ai.projects.onedp" = Some md1
    ∧ get_attr md1 "AIProjectClient" = Ok ctor
    ∧ modules W "azure.identity" = Some md2
    ∧ get_attr md2 "DefaultAzureCredential" = Ok cred_ctor
    ∧ globals st' !! "project_client" = Some client
    ∧ get_path client ["get_openai_client"] = Ok f_openai
    ∧ globals st' !! "openai" = Some oa
    ∧ get_path oa ["chat"; "completions"; "create"] = Ok f_chat
    ∧ let read_endpoint := ERead env "PROJECT_ENDPOINT" in
      let make_credential := ECall cred_ctor [] [] in
      let make_client := ECall ctor [] [("endpoint", endpoint); ("credential", cred)] in
      let get_openai := ECall f_openai [] [("api_version", VStr "2024-06-01")] in
      let read_model := ERead env "MODEL_DEPLOYMENT_NAME" in
      let complete := ECall f_chat [] [("model", model); ("messages", chat_messages)] in
      trace st' =
        trace st ++
        [read_endpoint; make_credential; make_client; get_openai; read_model; complete;
         EPrint line]
      ∧ getenv W (trace st) env "PROJECT_ENDPOINT" = Ok endpoint
      ∧ respond W (trace st ++ [read_endpoint]) cred_ctor [] [] = Ok cred
      ∧ respond W (trace st ++ [read_endpoint; make_credential]) ctor []
          [("endpoint", endpoint); ("credential", cred)] = Ok client
      ∧ respond W (trace st ++ [read_endpoint; make_credential; make_client]) f_openai []
          [("api_version", VStr "2024-06-01")] = Ok oa
      ∧ getenv W (trace st ++ [read_endpoint; make_credential; make_client; get_openai])
          env "MODEL_DEPLOYMENT_NAME" = Ok model.
Proof.
  intros Hrun. inverted Hrun; simplify_eq; merge_results.
  repeat match goal with
         | H : respond _ _ _ _ _ = _ |- _ =>
             progress (rewrite <- ?app_assoc in H; cbn [app] in H)
         | H : getenv _ _ _ _ = _ |- _ =>
             progress (rewrite <- ?app_assoc in H; cbn [app] in H)
         end.
  do 14 eexists; split_and!;
    [ eassumption | eassumption | eassumption | eassumption | eassumption | eassumption
    | bound_global | eassumption | bound_global | eassumption | ];
    cbv zeta; split_and!; [events_in_order | eassumption..].
Qed.

(** The read of line 59 and the call it feeds. *)
Lemma create_and_run_agent_model W st st' :
  create_and_run_agent W st = (Ok tt, st') →
  ∃ client f_agent os env model rest,
    globals st !! "project_client" = Some client
    ∧ get_path client ["agents"; "create_agent"] = Ok f_agent
    ∧ globals st !! "os" = Some os
    ∧ get_attr os "environ" = Ok env
    ∧ getenv W (trace st) env "MODEL_DEPLOYMENT_NAME" = Ok model
    ∧ trace st' =
      trace st ++
      ERead env "MODEL_DEPLOYMENT_NAME"
      :: ECall f_agent [] [("model", model); ("name", VStr "my-agent");
                           ("instructions", VStr "You are a helpful writing assistant")]
      :: rest
    ∧ reads rest = [].
Proof.
  intros Hrun. inverted Hrun; merge_results.
  all: do 6 eexists; split_and!; [eassumption..| events_in_order |].
  all: cbn [reads]; rewrite ?reads_app, ?reads_prints; reflexivity.
Qed.

(** C5: the script reads the process environment only as
    [os.environ["PROJECT_ENDPOINT"]] and [os.environ["MODEL_DEPLOYMENT_NAME"]].
    In every execution the reads are: none, or [PROJECT_ENDPOINT] once,
    followed by reads of [MODEL_DEPLOYMENT_NAME] only; an execution that
    runs to its end has read [PROJECT_ENDPOINT] once and then
    [MODEL_DEPLOYMENT_NAME] twice.  What the read of line 38 returned is the
    [endpoint] of the one call of the imported [AIProjectClient]; what the
    read of line 45 returned is the [model] of the call of
    [openai.chat.completions.create]; what the read of line 59 returned is
    the [model] of the call of [project_client.agents.create_agent].  A
    world that differs only in what the other variables of the environment
    hold gives the same execution. *)
Theorem only_documented_env_vars W :
  (∀ st, ∃ ext,
     trace (snd (quickstart W st)) = trace st ++ ext
     ∧ (reads ext = []
        ∨ ∃ ms, reads ext = "PROJECT_ENDPOINT" :: ms
                ∧ Forall (λ k, k = "MODEL_DEPLOYMENT_NAME") ms))
  ∧ (∀ st st', quickstart W st = (Ok tt, st') →
       reads (trace st') =
       reads (trace st)
       ++ ["PROJECT_ENDPOINT"; "MODEL_DEPLOYMENT_NAME"; "MODEL_DEPLOYMENT_NAME"])
  ∧ (∀ st st', chat_completion W st = (Ok tt, st') →
       ∃ (os env md1 ctor md2 cred_ctor cred client f_openai oa f_chat endpoint model
          : value) (line : string),
         globals st !! "os" = Some os
         ∧ get_attr os "environ" = Ok env
         ∧ modules W "azure.ai.projects.onedp" = Some md1
         ∧ get_attr md1 "AIProjectClient" = Ok ctor
         ∧ modules W "azure.identity" = Some md2
         ∧ get_attr md2 "DefaultAzureCredential" = Ok cred_ctor
         ∧ globals st' !! "project_client" = Some client
         ∧ get_path client ["get_openai_client"] = Ok f_openai
         ∧ globals st' !! "openai" = Some oa
         ∧ get_path oa ["chat"; "completions"; "create"] = Ok f_chat
         ∧ let read_endpoint := ERead env "PROJECT_ENDPOINT" in
           let make_credential := ECall cred_ctor [] [] in
           let make_client :=
               ECall ctor [] [("endpoint", endpoint); ("credential", cred)] in
           let get_openai := ECall f_openai [] [("api_version", VStr "2024-06-01")] in
           let read_model := ERead env "MODEL_DEPLOYMENT_NAME" in
           let complete :=
               ECall f_chat [] [("model", model); ("messages", chat_messages)] in
           trace st' =
             trace st ++
             [read_endpoint; make_credential; make_client; get_openai; read_model; complete;
              EPrint line]
           ∧ getenv W (trace st) env "PROJECT_ENDPOINT" = Ok endpoint
           ∧ respond W (trace st ++ [read_endpoint]) cred_ctor [] [] = Ok cred
           ∧ respond W (trace st ++ [read_endpoint; make_credential]) ctor []
               [("endpoint", endpoint); ("credential", cred)] = Ok client
           ∧ respond W (trace st ++ [read_endpoint; make_credential; make_client])
               f_openai [] [("api_version", VStr "2024-06-01")] = Ok oa
           ∧ getenv W
               (trace st ++ [read_endpoint; make_credential; make_client; get_openai])
               env "MODEL_DEPLOYMENT_NAME" = Ok model)
  ∧ (∀ st st', create_and_run_agent W st = (Ok tt, st') →
       ∃ client f_agent os env model rest,
         globals st !! "project_client" = Some client
         ∧ get_path client ["agents"; "create_agent"] = Ok f_agent
         ∧ globals st !! "os" = Some os
         ∧ get_attr os "environ" = Ok env
         ∧ getenv W (trace st) env "MODEL_DEPLOYMENT_NAME" = Ok model
         ∧ trace st' =
           trace st ++
           ERead env "MODEL_DEPLOYMENT_NAME"
           :: ECall f_agent [] [("model", model); ("name", VStr "my-agent");
                                ("instructions", VStr "You are a helpful writing assistant")]
           :: rest
         ∧ reads rest = [])
  ∧ (∀ W' g,
       (∀ m, modules W' m = modules W m) →
       (∀ v, render W' v = render W v) →
       (∀ h f args kwargs, respond W' h f args kwargs = respond W h f args kwargs) →
       (∀ h mapping k, k = "PROJECT_ENDPOINT" ∨ k = "MODEL_DEPLOYMENT_NAME" →
                       getenv W' h mapping k = getenv W h mapping k) →
       quickstart W' (started g) = quickstart W (started g)).
Proof.
  split_and!.
  - intros st. rewrite quickstart_bootstrap.
    destruct (straight_emits no_read preamble preamble_no_read W st) as (ext1 & Ht1 & Hr1).
    apply no_read_reads in Hr1.
    destruct (preamble W st) as [[[]|e] st1]; simpl in Ht1;
      [|exists ext1; split; [done | by left]].
    destruct (init_client_reads W st1) as (ext2 & Ht2 & Hr2).
    destruct (init_client W st1) as [[[]|e] st2] eqn:Hinit; simpl in Ht2.
    + apply init_client_read_once in Hinit. rewrite Ht2, reads_app in Hinit.
      apply app_inv_head in Hinit. clear Hr2. rename Hinit into Hr2.
      destruct (straight_emits model_read after_init_client after_init_client_model_read
                  W st2) as (ext3 & Ht3 & Hr3).
      apply model_read_reads in Hr3.
      exists (ext1 ++ ext2 ++ ext3). rewrite Ht3, Ht2, Ht1, <- !app_assoc.
      split; [done|]. rewrite !reads_app, Hr1, Hr2. simpl. right. by exists (reads ext3).
    + exists (ext1 ++ ext2). simpl. rewrite Ht2, Ht1, <- !app_assoc.
      split; [done|]. rewrite !reads_app, Hr1. simpl.
      destruct Hr2 as [-> | ->]; [by left | right; by exists []].
  - intros st st' Hrun. unfold quickstart in Hrun.
    apply bind_ok in Hrun as ([] & st1 & H1 & Hrun).
    apply bind_ok in Hrun as ([] & st2 & H2 & Hrun).
    apply bind_ok in Hrun as ([] & st3 & H3 & Hrun).
    apply bind_ok in Hrun as ([] & st4 & H4 & H5).
    pose proof (straight_no_read load_env W st load_env_no_read) as R1.
    pose proof (straight_no_read create_filesearch_agent W st3
                  create_filesearch_agent_no_read) as R4.
    pose proof (straight_no_read evaluate_agent_run W st4 evaluate_agent_run_no_read) as R5.
    rewrite H1 in R1. rewrite H4 in R4. rewrite H5 in R5. simpl in R1, R4, R5.
    apply chat_completion_trace in H2
      as (? & ? & ? & ? & ? & ? & ? & ? & ? & ? & ? & ? & ? & ?
          & _ & _ & _ & _ & _ & _ & _ & _ & _ & _ & R2 & _).
    apply create_and_run_agent_model in H3
      as (? & ? & ? & ? & ? & rest & _ & _ & _ & _ & _ & R3 & Hrest).
    rewrite R5, R4, R3, reads_app. cbn [reads]. rewrite Hrest, R2, reads_app.
    cbn [reads]. by rewrite R1, <- app_assoc.
  - apply chat_completion_trace.
  - apply create_and_run_agent_model.
  - intros W' g Hmod Hren Hresp Henv.
    apply straight_replay; [apply quickstart_straight | done | done |].
    intros h c rest Ht.
    destruct (straight_emits documented_read quickstart quickstart_documented_reads
                W (started g)) as (ext & Hext & Hdoc).
    simpl in Hext. rewrite Ht in Hext. subst ext.
    apply Forall_app in Hdoc as [_ Hdoc]. apply Forall_cons in Hdoc as [Hc _].
    destruct c as [f args kwargs| | |mapping k]; simpl; [|done|done|].
    + f_equal. apply Hresp.
    + f_equal. by apply Henv.
Qed.

(** The mocked execution reads the three variables in that order, passes
    them on as said, and is the same in a world whose other environment
    variables are all set. *)
Lemma only_documented_env_vars_witness :
  let W := Mock.mock "failed" "completed" in
  let st1 := snd (load_env W (started Mock.harness)) in
  let st2 := snd (chat_completion W st1) in
  reads (trace (snd (quickstart W (started Mock.harness))))
  = reads (trace (started Mock.harness))
    ++ ["PROJECT_ENDPOINT"; "MODEL_DEPLOYMENT_NAME"; "MODEL_DEPLOYMENT_NAME"]
  ∧ (∃ env ctor cred_ctor cred f_openai f_chat endpoint model line,
       trace st2 =
       trace st1 ++
       [ ERead env "PROJECT_ENDPOINT";
         ECall cred_ctor [] [];
         ECall ctor [] [("endpoint", endpoint); ("credential", cred)];
         ECall f_openai [] [("api_version", VStr "2024-06-01")];
         ERead env "MODEL_DEPLOYMENT_NAME";
         ECall f_chat [] [("model", model); ("messages", chat_messages)];
         EPrint line ]
       ∧ getenv W (trace st1) env "PROJECT_ENDPOINT" = Ok endpoint)
  ∧ (∃ f_agent env model rest,
       getenv W (trace st2) env "MODEL_DEPLOYMENT_NAME" = Ok model
       ∧ trace (snd (create_and_run_agent W st2)) =
         trace st2 ++
         ERead env "MODEL_DEPLOYMENT_NAME"
         :: ECall f_agent [] [("model", model); ("name", VStr "my-agent");
                              ("instructions", VStr "You are a helpful writing assistant")]
         :: rest)
  ∧ quickstart (Mock.with_other_variables (VStr "0000") W) (started Mock.harness)
    = quickstart W (started Mock.harness).
Proof.
  intros W st1 st2.
  destruct (only_documented_env_vars W) as (_ & Hreads & Hchat & Hagent & Hsame).
  split_and!.
  - apply Hreads. reflexivity.
  - destruct (Hchat st1 st2 eq_refl)
      as (os & env & md1 & ctor & md2 & cred_ctor & cred & client & f_openai & oa & f_chat
          & endpoint & model & line & _ & _ & _ & _ & _ & _ & _ & _ & _ & _
          & Htrace & Hendpoint & _).
    exists env, ctor, cred_ctor, cred, f_openai, f_chat, endpoint, model, line.
    exact (conj Htrace Hendpoint).
  - destruct (Hagent st2 (snd (create_and_run_agent W st2)) eq_refl)
      as (client & f_agent & os & env & model & rest & _ & _ & _ & _ & Hmodel & Htrace & _).
    exists f_agent, env, model, rest. exact (conj Hmodel Htrace).
  - apply Hsame; [reflexivity | reflexivity | reflexivity |].
    intros h mapping k [-> | ->]; reflexivity.
Defined.

(** * Exceptions *)

(** Closes the case of a part of the script that raised. *)
Ltac ends_here :=
  split;
    [ intros ?; simplify_eq; naive_solver
    | intros Hcases;
      repeat (destruct Hcases as [Hcases|Hcases]);
      repeat match goal with
             | H : ∃ _, _ |- _ => destruct H
             | H : _ ∧ _ |- _ => destruct H
             end;
      congruence ].

(** C6: the script handles no exception.  In every execution either every
    call and every read of the environment returned, or the last thing the
    script did is a call or a read that raised, and the script ended with
    that very exception: nothing is retried and nothing is done afterwards.
    In particular, when the read of [PROJECT_ENDPOINT] at line 38 raises
    (the variable is set neither in the environment nor by what
    [load_dotenv()] loaded), the script ends there with that exception,
    before the credential or the client is constructed.  Whatever the
    exception and wherever it comes from, the script ends with the
    exception [e] exactly when one of its five parts does, the parts before
    it having run to their end, and it ends in the state that part had
    reached. *)
Theorem exceptions_propagate W g :
  unhandled W [] (trace (snd (quickstart W (started g)))) (fst (quickstart W (started g)))
  ∧ (∀ st1 os env e,
       preamble W (started g) = (Ok tt, st1) →
       g !! "os" = Some os →
       get_attr os "environ" = Ok env →
       getenv W (trace st1) env "PROJECT_ENDPOINT" = Raise e →
       quickstart W (started g)
       = (Raise e, add_event (ERead env "PROJECT_ENDPOINT") st1))
  ∧ (∀ st e st',
       quickstart W st = (Raise e, st') ↔
       load_env W st = (Raise e, st')
       ∨ (∃ st1, load_env W st = (Ok tt, st1)
                 ∧ chat_completion W st1 = (Raise e, st'))
       ∨ (∃ st1 st2, load_env W st = (Ok tt, st1)
                     ∧ chat_completion W st1 = (Ok tt, st2)
                     ∧ create_and_run_agent W st2 = (Raise e, st'))
       ∨ (∃ st1 st2 st3, load_env W st = (Ok tt, st1)
                         ∧ chat_completion W st1 = (Ok tt, st2)
                         ∧ create_and_run_agent W st2 = (Ok tt, st3)
                         ∧ create_filesearch_agent W st3 = (Raise e, st'))
       ∨ (∃ st1 st2 st3 st4, load_env W st = (Ok tt, st1)
                             ∧ chat_completion W st1 = (Ok tt, st2)
                             ∧ create_and_run_agent W st2 = (Ok tt, st3)
                             ∧ create_filesearch_agent W st3 = (Ok tt, st4)
                             ∧ evaluate_agent_run W st4 = (Raise e, st'))).
Proof.
  split_and!.
  - destruct (straight_unhandled quickstart quickstart_straight W (started g))
      as (ext & Ht & Hu).
    simpl in Ht. by rewrite Ht.
  - intros st1 os env e Hpre Hos Henv Hread. rewrite quickstart_bootstrap, Hpre.
    unfold preamble in Hpre. inverted Hpre.
    unfold init_client. unfold bind at 1. unfold name at 1.
    cbn [globals set_global add_event].
    rewrite lookup_insert_ne, lookup_insert_ne, lookup_insert_eq by discriminate.
    unfold bind at 1. rewrite environ_unfold. unfold environ_mapping.
    cbn [globals trace set_global add_event started] in *.
    rewrite !lookup_insert_ne by discriminate. rewrite Hos.
    cbn [get_path]. by rewrite Henv, Hread.
  - intros st e st'. unfold quickstart, bind.
    destruct (load_env W st) as [[[]|e1] st1] eqn:E1; [|ends_here].
    destruct (chat_completion W st1) as [[[]|e2] st2] eqn:E2; [|ends_here].
    destruct (create_and_run_agent W st2) as [[[]|e3] st3] eqn:E3; [|ends_here].
    destruct (create_filesearch_agent W st3) as [[[]|e4] st4] eqn:E4; [|ends_here].
    ends_here.
Qed.

(** Without [PROJECT_ENDPOINT] the mocked script ends at line 38; on the
    terse client it ends in the agent-lifecycle section, with the exception
    that section raised. *)
Lemma exceptions_propagate_witness :
  let W := Mock.mock "failed" "completed" in
  let g : gmap string value := <["os" := os_module []]> ∅ in
  let st2 := snd ((load_env;; chat_completion) Mock.terse (started Mock.harness)) in
  quickstart W (started g)
  = (Raise (KeyError "PROJECT_ENDPOINT"),
     add_event (ERead (VDict []) "PROJECT_ENDPOINT") (snd (preamble W (started g))))
  ∧ quickstart Mock.terse (started Mock.harness)
    = (Raise (AttributeError "last_error"), snd (create_and_run_agent Mock.terse st2)).
Proof.
  intros W g st2. split.
  - destruct (exceptions_propagate W g) as (_ & Hkey & _).
    by eapply Hkey.
  - destruct (exceptions_propagate Mock.terse Mock.harness) as (_ & _ & Hpart).
    apply Hpart. right. right. left.
    exists (snd (load_env Mock.terse (started Mock.harness))), st2.
    split_and!; reflexivity.
Defined.

(** * Determinism *)

(** C7: an execution is determined by the namespace it starts from and by
    the answers of the world to the calls it issues and to the reads of the
    environment it performs.  If a second world has the same modules,
    renders objects the same way and gives the same answer to every call
    and every read of the first execution, then the second execution equals
    the first: same outcome, same calls with the same arguments, same
    printed lines. *)
Theorem replay_deterministic W1 W2 g :
  (∀ m, modules W2 m = modules W1 m) →
  (∀ v, render W2 v = render W1 v) →
  (∀ h c rest, trace (snd (quickstart W1 (started g))) = h ++ c :: rest →
               answer_to W2 h c = answer_to W1 h c) →
  quickstart W2 (started g) = quickstart W1 (started g).
Proof.
  intros Hmod Hren Hans. by apply straight_replay; [apply quickstart_straight|..].
Qed.

(** A client that would time out after a thousand events answers the 41
    events of the mocked execution as the mocked client does. *)
Lemma replay_deterministic_witness :
  quickstart (Mock.impatient 1000 (Mock.mock "failed" "completed")) (started Mock.harness)
  = quickstart (Mock.mock "failed" "completed") (started Mock.harness).
Proof.
  apply replay_deterministic; [reflexivity | reflexivity |].
  intros h c rest Ht.
  assert (length (trace (snd (quickstart (Mock.mock "failed" "completed")
                                (started Mock.harness)))) = 41) as Hlen
    by (vm_compute; reflexivity).
  rewrite Ht, length_app in Hlen. simpl in Hlen.
  destruct c; simpl; [|done..]. f_equal.
  destruct (Nat.ltb_spec 1000 (length h)); [lia | done].
Defined.

(** * Further properties of the script *)

(** * What the sections print *)

Ltac printed_lines :=
  unfold diagnostic;
  try match goal with Hcond : eq_str _ _ = _ |- _ => rewrite Hcond end;
  same_trace.

(** X1: a complete run of the agent-lifecycle section prints, in this
    order: the id of the created agent, the id of the created thread, the
    id of the message that the call of [project_client.agents.messages.create]
    returned, the status of the run, the diagnostic when that status is
    ["failed"], one line per listed message (none when the listing is
    empty), and ["Deleted agent"]. *)
Theorem lifecycle_output W st st' :
  create_and_run_agent W st = (Ok tt, st') →
  ∃ (client f_message agent aid thread tid message mid run status err listing : value)
    (items : list value) (lines : list string) (pre : list event),
    globals st !! "project_client" = Some client
    ∧ get_path client ["agents"; "messages"; "create"] = Ok f_message
    ∧ globals st' !! "agent" = Some agent ∧ get_path agent ["id"] = Ok aid
    ∧ globals st' !! "thread" = Some thread ∧ get_path thread ["id"] = Ok tid
    ∧ answered W (trace st') (calls (trace st) ++ pre)
        (ECall f_message [] [("thread_id", tid); ("role", VStr "user");
                             ("content", VStr "Write me a poem about flowers")])
        message
    ∧ get_key message "id" = Ok mid
    ∧ globals st' !! "run" = Some run ∧ get_path run ["status"] = Ok status
    ∧ (eq_str status "failed" = true → get_path run ["last_error"] = Ok err)
    ∧ globals st' !! "messages" = Some listing ∧ iter_items listing = Ok items
    ∧ Forall2 (logged W) items lines
    ∧ printed (trace st') =
      printed (trace st) ++
      [ "Created agent, ID: " +:+ py_str W aid;
        "Created thread, ID: " +:+ py_str W tid;
        "Created message, ID: " +:+ py_str W mid;
        "Run finished with status: " +:+ py_str W status ] ++
      diagnostic W status err ++ lines ++ ["Deleted agent"].
Proof.
  intros Hrun. inverted Hrun; merge_results.
  all: do 15 eexists; split_and!;
    [ eassumption | eassumption
    | bound_global | eassumption | bound_global | eassumption
    | answered_within | eassumption
    | bound_global | eassumption | | bound_global | eassumption | eassumption | ].
  all: try printed_lines.
  all: try (intros; eassumption).
  all: try (intros; congruence).
  Unshelve. all: exact VNone.
Qed.

(** The section runs to its end on the mocked client, with a failed run. *)
Lemma lifecycle_output_witness :
  ∃ aid tid mid status err lines,
    printed (trace (snd (create_and_run_agent (Mock.mock "failed" "completed")
                           (snd ((load_env;; chat_completion)
                                   (Mock.mock "failed" "completed")
                                   (started Mock.harness))))))
    = printed (trace (snd ((load_env;; chat_completion) (Mock.mock "failed" "completed")
                             (started Mock.harness))))
      ++ [ "Created agent, ID: " +:+ py_str (Mock.mock "failed" "completed") aid;
           "Created thread, ID: " +:+ py_str (Mock.mock "failed" "completed") tid;
           "Created message, ID: " +:+ py_str (Mock.mock "failed" "completed") mid;
           "Run finished with status: " +:+ py_str (Mock.mock "failed" "completed") status ]
      ++ diagnostic (Mock.mock "failed" "completed") status err ++ lines
      ++ ["Deleted agent"].
Proof.
  destruct (lifecycle_output (Mock.mock "failed" "completed")
              (snd ((load_env;; chat_completion) (Mock.mock "failed" "completed")
                      (started Mock.harness)))
              _ eq_refl)
    as (client & f_message & agent & aid & thread & tid & message & mid & run & status
        & err & listing & items & lines & pre
        & _ & _ & _ & _ & _ & _ & _ & _ & _ & _ & _ & _ & _ & _ & Hprinted).
  exists aid, tid, mid, status, err, lines. exact Hprinted.
Defined.

(** X2: a complete run of the file-search section prints nothing but the
    diagnostic, when the status of its run is ["failed"], followed by one
    line per text message of the listing; the listing call is the last
    call of the section and every message line comes after it.  Unlike the
    agent-lifecycle section it prints no id and no status. *)
Theorem filesearch_output W st st' :
  create_filesearch_agent W st = (Ok tt, st') →
  ∃ run status err lines,
    globals st' !! "run" = Some run ∧ get_path run ["status"] = Ok status
    ∧ (eq_str status "failed" = true → get_path run ["last_error"] = Ok err)
    ∧ printed (trace st') = printed (trace st) ++ diagnostic W status err ++ lines
    ∧ ∃ before f args kwargs listing texts items,
        trace st' = before ++ ECall f args kwargs :: map EPrint lines
        ∧ respond W before f args kwargs = Ok listing
        ∧ get_attr listing "text_messages" = Ok texts
        ∧ iter_items texts = Ok items
        ∧ Forall2 (shown W) items lines.
Proof.
  intros Hrun. inverted Hrun; merge_results.
  all: do 4 eexists; split_and!;
    [ bound_global | eassumption | | |
      do 7 eexists; split_and!;
      [ explicit_trace; rewrite <- app_assoc; reflexivity
      | eassumption | eassumption | eassumption | eassumption ] ].
  all: try printed_lines.
  all: try (intros; eassumption).
  all: try (intros; congruence).
  Unshelve. all: exact VNone.
Qed.

(** What the section prints on the mocked client when the run succeeds. *)
Lemma filesearch_output_witness :
  ∃ status err lines,
    printed (trace (snd (create_filesearch_agent (Mock.mock "failed" "completed")
                           (snd (before_filesearch (Mock.mock "failed" "completed")
                                   (started Mock.harness))))))
    = printed (trace (snd (before_filesearch (Mock.mock "failed" "completed")
                             (started Mock.harness))))
      ++ diagnostic (Mock.mock "failed" "completed") status err ++ lines.
Proof.
  destruct (filesearch_output (Mock.mock "failed" "completed")
              (snd (before_filesearch (Mock.mock "failed" "completed")
                      (started Mock.harness)))
              _ eq_refl) as (run & status & err & lines & _ & _ & _ & Hprinted & _).
  by exists status, err, lines.
Defined.

(** * The evaluation (lines 131-142) *)

Lemma last_five {A} (l pre before : list A) (a b c d e : A) :
  before = l ++ pre →
  ((((before ++ [a]) ++ [b]) ++ [c]) ++ [d]) ++ [e] = l ++ pre ++ [a; b; c; d; e].
Proof. intros ->. by rewrite <- !app_assoc. Qed.

(** X3: when the file-search section and the evaluation run to their end,
    the evaluation is requested for the thread and the run of the
    file-search section (the names [thread] and [run] were rebound there),
    with the single evaluator [EvaluatorIds.AGENT_QUALITY_EVALUATOR]; it is
    requested after the agent has been deleted and the messages listed;
    [wait_for_completion()] and then [output()] are called on the object it
    returned, and the last line printed is that output. *)
Theorem evaluation_of_filesearch_run W st st' :
  (create_filesearch_agent;; evaluate_agent_run) W st = (Ok tt, st') →
  ∃ (project f_thread f_run f_delete_agent f_list f_evaluate
     thread tid aid run rid ids evaluator evaluation f_wait f_output output : value)
    (pre1 pre2 pre3 : list event),
    globals st !! "project" = Some project
    ∧ get_path project ["agents"; "threads"; "create"] = Ok f_thread
    ∧ get_path project ["agents"; "runs"; "create_and_process"] = Ok f_run
    ∧ get_path project ["agents"; "delete_agent"] = Ok f_delete_agent
    ∧ get_path project ["agents"; "messages"; "list"] = Ok f_list
    ∧ get_path project ["evaluation"; "create_agent_evaluation"] = Ok f_evaluate
    ∧ globals st' !! "EvaluatorIds" = Some ids
    ∧ get_path ids ["AGENT_QUALITY_EVALUATOR"] = Ok evaluator
    ∧ globals st' !! "result" = Some evaluation
    ∧ get_path evaluation ["wait_for_completion"] = Ok f_wait
    ∧ get_path evaluation ["output"] = Ok f_output
    ∧ let earlier := calls (trace st) in
      let create_thread := ECall f_thread [] [] in
      let run_agent := ECall f_run [] [("thread_id", tid); ("agent_id", aid)] in
      let delete_agent := ECall f_delete_agent [aid] [] in
      let list_messages := ECall f_list [] [("thread_id", tid)] in
      let evaluate :=
          ECall f_evaluate [] [("thread", tid); ("run", rid);
                               ("evaluators", VList [evaluator])] in
      answered W (trace st') (earlier ++ pre1) create_thread thread
      ∧ get_path thread ["id"] = Ok tid
      ∧ answered W (trace st') (earlier ++ pre2) run_agent run
      ∧ get_path run ["id"] = Ok rid
      ∧ calls (trace st') =
        earlier ++ pre3 ++
        [delete_agent; list_messages; evaluate; ECall f_wait [] []; ECall f_output [] []]
      ∧ answered W (trace st') (earlier ++ pre3 ++ [delete_agent; list_messages])
          evaluate evaluation
      ∧ answered W (trace st')
          (earlier ++ pre3 ++ [delete_agent; list_messages; evaluate; ECall f_wait [] []])
          (ECall f_output [] []) output
      ∧ ∃ before, printed (trace st') = before ++ [py_str W output].
Proof.
  intros Hrun. inverted Hrun; merge_results.
  all: do 20 eexists; split_and!;
    [ eassumption | eassumption | eassumption | eassumption | eassumption | eassumption
    | bound_global | eassumption | bound_global | eassumption | eassumption | ];
    cbv zeta; split_and!;
    [ answered_within | eassumption | answered_within | eassumption
    | explicit_trace; rewrite ?calls_app, ?calls_prints; cbn [calls]; rewrite ?app_nil_r;
      apply last_five; rewrite <- ?app_assoc; cbn [app]; reflexivity
    | is_answered | is_answered
    | eexists; explicit_trace; rewrite ?printed_app, ?printed_prints; cbn [printed];
      reflexivity ].
Qed.

(** The last five calls of the mocked execution. *)
Lemma evaluation_of_filesearch_run_witness :
  ∃ f_delete_agent f_list f_evaluate f_wait f_output aid tid rid evaluator pre,
    calls (trace (snd ((create_filesearch_agent;; evaluate_agent_run)
                         (Mock.mock "failed" "completed")
                         (snd (before_filesearch (Mock.mock "failed" "completed")
                                 (started Mock.harness))))))
    = calls (trace (snd (before_filesearch (Mock.mock "failed" "completed")
                           (started Mock.harness))))
      ++ pre ++
      [ ECall f_delete_agent [aid] [];
        ECall f_list [] [("thread_id", tid)];
        ECall f_evaluate [] [("thread", tid); ("run", rid);
                             ("evaluators", VList [evaluator])];
        ECall f_wait [] [];
        ECall f_output [] [] ].
Proof.
  destruct (evaluation_of_filesearch_run (Mock.mock "failed" "completed")
              (snd (before_filesearch (Mock.mock "failed" "completed")
                      (started Mock.harness)))
              _ eq_refl)
    as (project & f_thread & f_run & f_delete_agent & f_list & f_evaluate & thread & tid
        & aid & run & rid & ids & evaluator & evaluation & f_wait & f_output & output
        & pre1 & pre2 & pre3 & _ & _ & _ & _ & _ & _ & _ & _ & _ & _ & _
        & _ & _ & _ & _ & Hcalls & _).
  by exists f_delete_agent, f_list, f_evaluate, f_wait, f_output, aid, tid, rid,
    evaluator, pre3.
Defined.

(** * How many calls a complete run makes *)

Ltac counted :=
  eexists; split; [prefix_of_calls | reflexivity].

Lemma load_env_count W st st' :
  load_env W st = (Ok tt, st') →
  ∃ cs, calls (trace st') = calls (trace st) ++ cs ∧ length cs = 1.
Proof. intros Hrun. inverted Hrun. counted. Qed.

Lemma chat_completion_count W st st' :
  chat_completion W st = (Ok tt, st') →
  ∃ cs, calls (trace st') = calls (trace st) ++ cs ∧ length cs = 4.
Proof. intros Hrun. inverted Hrun; simplify_eq; merge_results. counted. Qed.

Lemma create_and_run_agent_count W st st' :
  create_and_run_agent W st = (Ok tt, st') →
  ∃ cs, calls (trace st') = calls (trace st) ++ cs ∧ length cs = 6.
Proof. intros Hrun. inverted Hrun; counted. Qed.

Lemma create_filesearch_agent_count W st st' :
  create_filesearch_agent W st = (Ok tt, st') →
  ∃ cs, calls (trace st') = calls (trace st) ++ cs ∧ length cs = 11.
Proof. intros Hrun. inverted Hrun; counted. Qed.

Lemma evaluate_agent_run_count W st st' :
  evaluate_agent_run W st = (Ok tt, st') →
  ∃ cs, calls (trace st') = calls (trace st) ++ cs ∧ length cs = 3.
Proof. intros Hrun. inverted Hrun. counted. Qed.

(** X4: an execution of the whole script that runs to its end has issued
    exactly 25 external calls (1 + 4 + 6 + 11 + 3 over the five parts),
    whatever the statuses of the two runs and however many messages were
    listed. *)
Theorem complete_run_call_count W st st' :
  quickstart W st = (Ok tt, st') →
  length (calls (trace st')) = length (calls (trace st)) + 25.
Proof.
  intros Hrun. unfold quickstart in Hrun.
  apply bind_ok in Hrun as ([] & st1 & H1 & Hrun).
  apply bind_ok in Hrun as ([] & st2 & H2 & Hrun).
  apply bind_ok in Hrun as ([] & st3 & H3 & Hrun).
  apply bind_ok in Hrun as ([] & st4 & H4 & H5).
  apply load_env_count in H1 as (cs1 & E1 & L1).
  apply chat_completion_count in H2 as (cs2 & E2 & L2).
  apply create_and_run_agent_count in H3 as (cs3 & E3 & L3).
  apply create_filesearch_agent_count in H4 as (cs4 & E4 & L4).
  apply evaluate_agent_run_count in H5 as (cs5 & E5 & L5).
  rewrite E5, E4, E3, E2, E1.
  rewrite !length_app, L1, L2, L3, L4, L5. lia.
Qed.

(** The mocked execution, with [os] and [project] bound by the harness. *)
Lemma complete_run_call_count_witness :
  length (calls (trace (snd (quickstart (Mock.mock "failed" "completed")
                               (started Mock.harness)))))
  = length (calls (trace (started Mock.harness))) + 25.
Proof.
  apply (complete_run_call_count (Mock.mock "failed" "completed")). reflexivity.
Defined.

(** * The names the script assigns *)

Lemma straight_frame names {A} (m : M A) :
  straight (binding_only names) m →
  ∀ x, ¬ In x names → ∀ W st, globals (snd (m W st)) !! x = globals st !! x.
Proof.
  induction 1 as [A a|A r|A B m f _ IHm _ IHf|y _|k _|y v Hy|md y Hy
                 |f args kwargs _|v|line _|v s _]; intros x Hx W st; try done.
  - specialize (IHm x Hx W st). unfold bind.
    destruct (m W st) as [[a|e] st1]; simpl in *; [|done].
    by rewrite (IHf a x Hx W st1).
  - unfold name. by destruct (globals st !! y).
  - by rewrite environ_globals.
  - simpl. rewrite lookup_insert_ne; [done|]. by intros ->.
  - unfold import_from. destruct (modules W md) as [o|]; [|done].
    destruct (get_attr o y); [|done]. simpl. rewrite lookup_insert_ne; [done|].
    by intros ->.
  - unfold call. by destruct (is_callable f).
Qed.

Ltac listed := simpl; first [exact I | tauto].

Lemma quickstart_binding : straight (binding_only assigned_names) quickstart.
Proof. unfold_script. straighten; listed. Qed.

Lemma after_init_client_binding :
  straight (binding_only
              [ "openai"; "response"; "agent"; "thread"; "message"; "run"; "messages";
                "file"; "vector_store"; "file_search"; "EvaluatorIds"; "result" ])
    after_init_client.
Proof. unfold after_init_client. unfold_script. straighten; listed. Qed.

(** X5: whatever happens, the script assigns no name outside the
    seventeen listed in [assigned_names]: every other binding of the
    namespace (such as [os] or [project]) is the same at the end as at the
    start.  And once the client is constructed (line 40), the names bound by
    the imports and [project_client] are never assigned again. *)
Theorem namespace_discipline W st x :
  (¬ In x assigned_names → globals (snd (quickstart W st)) !! x = globals st !! x)
  ∧ (In x bootstrap_names →
       globals (snd (after_init_client W st)) !! x = globals st !! x).
Proof.
  split.
  - intros Hx. by apply (straight_frame assigned_names quickstart quickstart_binding).
  - intros Hx. apply (straight_frame _ after_init_client after_init_client_binding).
    simpl in *. intros Hy.
    repeat match goal with
           | H : _ ∨ _ |- _ => destruct H as [H|H]
           | H : False |- _ => destruct H
           end; subst; simplify_eq.
Qed.

(** [os] is untouched by the mocked execution, and [project_client] by
    everything after line 40. *)
Lemma namespace_discipline_witness :
  globals (snd (quickstart (Mock.mock "failed" "completed") (started Mock.harness))) !! "os"
  = globals (started Mock.harness) !! "os"
  ∧ globals (snd (after_init_client (Mock.mock "failed" "completed")
                    (snd (bootstrap (Mock.mock "failed" "completed")
                            (started Mock.harness))))) !! "project_client"
    = globals (snd (bootstrap (Mock.mock "failed" "completed")
                      (started Mock.harness))) !! "project_client".
Proof.
  split.
  - apply (namespace_discipline (Mock.mock "failed" "completed")).
    simpl. intros H. decompose [or] H; discriminate || assumption.
  - apply (namespace_discipline (Mock.mock "failed" "completed")).
    simpl. tauto.
Defined.

(** * Edge cases of the chat completion (lines 43-53) *)

(** Runs a piece of the script forward under hypotheses on what is bound
    and on what the world answers. *)
Ltac forward :=
  repeat first
    [ rewrite lookup_insert_eq
    | rewrite lookup_insert_ne by discriminate
    | match goal with
      | H : ?l = _ |- context [?l] => rewrite H
      end
    | progress cbn [globals trace set_global add_event] ].

Lemma snoc_two {A} (l : list A) (a b : A) : l ++ [a; b] = (l ++ [a]) ++ [b].
Proof. by rewrite <- app_assoc. Qed.

(** X6: when the chat completion comes back with an empty list of
    choices, line 53 raises [IndexError]: both calls have been issued (and
    the model read from the environment in between), the response is bound,
    nothing has been printed, and nothing else is done. *)
Theorem chat_without_choices W st client f_openai oa f_chat os env model response :
  globals st !! "project_client" = Some client →
  get_path client ["get_openai_client"] = Ok f_openai →
  is_callable f_openai = true →
  respond W (trace st) f_openai [] [("api_version", VStr "2024-06-01")] = Ok oa →
  get_path oa ["chat"; "completions"; "create"] = Ok f_chat →
  is_callable f_chat = true →
  globals st !! "os" = Some os →
  get_attr os "environ" = Ok env →
  getenv W (trace st ++ [ECall f_openai [] [("api_version", VStr "2024-06-01")]])
    env "MODEL_DEPLOYMENT_NAME" = Ok model →
  respond W (trace st ++ [ECall f_openai [] [("api_version", VStr "2024-06-01")];
                          ERead env "MODEL_DEPLOYMENT_NAME"])
    f_chat [] [("model", model); ("messages", chat_messages)] = Ok response →
  get_path response ["choices"] = Ok (VList []) →
  chat W st =
  (Raise IndexError,
   set_global "response" response
     (add_event (ECall f_chat [] [("model", model); ("messages", chat_messages)])
        (add_event (ERead env "MODEL_DEPLOYMENT_NAME")
           (set_global "openai" oa
              (add_event (ECall f_openai [] [("api_version", VStr "2024-06-01")]) st))))).
Proof.
  intros Hc Hf Hcf Hoa Hfc Hcfc Hos Henv Hmodel Hresp Hchoices.
  assert (get_path os ["environ"] = Ok env) as Hpath by (simpl; by rewrite Henv).
  rewrite snoc_two in Hresp.
  unfold chat, environ, read_environ, dotted, bind, name, lift, call, store.
  forward. done.
Qed.

(** The mocked client without choices. *)
Lemma chat_without_choices_witness :
  ∃ st', chat Mock.speechless (snd (bootstrap Mock.speechless (started Mock.harness)))
         = (Raise IndexError, st')
         ∧ printed (trace st') = [].
Proof.
  eexists. split.
  - eapply (chat_without_choices Mock.speechless); reflexivity.
  - reflexivity.
Defined.

(** X7: when [MODEL_DEPLOYMENT_NAME] cannot be read (as the environment is
    once [get_openai_client] has been called), the script fails at line 45
    only: [get_openai_client] has already been called and its result bound
    to [openai], and the completion is never requested. *)
Theorem chat_without_model W st client f_openai oa f_chat os env e :
  globals st !! "project_client" = Some client →
  get_path client ["get_openai_client"] = Ok f_openai →
  is_callable f_openai = true →
  respond W (trace st) f_openai [] [("api_version", VStr "2024-06-01")] = Ok oa →
  get_path oa ["chat"; "completions"; "create"] = Ok f_chat →
  globals st !! "os" = Some os →
  get_attr os "environ" = Ok env →
  getenv W (trace st ++ [ECall f_openai [] [("api_version", VStr "2024-06-01")]])
    env "MODEL_DEPLOYMENT_NAME" = Raise e →
  chat W st =
  (Raise e,
   add_event (ERead env "MODEL_DEPLOYMENT_NAME")
     (set_global "openai" oa
        (add_event (ECall f_openai [] [("api_version", VStr "2024-06-01")]) st))).
Proof.
  intros Hc Hf Hcf Hoa Hfc Hos Henv Hmodel.
  assert (get_path os ["environ"] = Ok env) as Hpath by (simpl; by rewrite Henv).
  unfold chat, environ, read_environ, dotted, bind, name, lift, call, store.
  forward. done.
Qed.

(** The mocked client with an environment that lacks the variable. *)
Lemma chat_without_model_witness :
  ∃ st',
    chat (Mock.mock "failed" "completed")
      (snd (bootstrap (Mock.mock "failed" "completed")
              (started (<["os" := os_module Mock.env_without_model]> Mock.harness))))
    = (Raise (KeyError "MODEL_DEPLOYMENT_NAME"), st').
Proof.
  eexists.
  eapply (chat_without_model (Mock.mock "failed" "completed")); reflexivity.
Defined.

(** * A failed run without [last_error] (lines 83 and 118) *)

Lemma report_failed_run_silent W st run e :
  globals st !! "run" = Some run →
  get_path run ["status"] = Ok (VStr "failed") →
  get_path run ["last_error"] = Raise e →
  report_failed_run W st = (Raise e, add_event (ECheck (VStr "failed") "failed" true) st).
Proof.
  intros Hrun Hstatus Herr.
  unfold report_failed_run, dotted, bind, name, lift, test_eq.
  rewrite Hrun, Hstatus. cbn [eq_str]. simpl (String.eqb _ _).
  cbn [globals add_event]. by rewrite Hrun, Herr.
Qed.

(** X8: when a run comes back with status ["failed"] but without a
    [last_error], the status check itself raises: the agent-lifecycle
    section ends there without listing the messages or deleting the agent,
    and the file-search section ends there without deleting the vector
    store, the file or the agent, and without the evaluation. *)
Theorem failed_run_without_last_error W :
  (∀ st st1 run e,
     create_and_run_agent_run W st = (Ok tt, st1) →
     globals st1 !! "run" = Some run →
     get_path run ["status"] = Ok (VStr "failed") →
     get_path run ["last_error"] = Raise e →
     create_and_run_agent W st
     = (Raise e, add_event (ECheck (VStr "failed") "failed" true) st1))
  ∧ (∀ st st1 run e,
     create_filesearch_agent_run W st = (Ok tt, st1) →
     globals st1 !! "run" = Some run →
     get_path run ["status"] = Ok (VStr "failed") →
     get_path run ["last_error"] = Raise e →
     (create_filesearch_agent;; evaluate_agent_run) W st
     = (Raise e, add_event (ECheck (VStr "failed") "failed" true) st1)).
Proof.
  split.
  - intros st st1 run e Hrun Hr Hs He. unfold create_and_run_agent, bind.
    by rewrite Hrun, (report_failed_run_silent W st1 run e Hr Hs He).
  - intros st st1 run e Hrun Hr Hs He. unfold create_filesearch_agent, bind.
    by rewrite Hrun, (report_failed_run_silent W st1 run e Hr Hs He).
Qed.

(** On the terse client both sections end at their status check. *)
Lemma failed_run_without_last_error_witness :
  create_and_run_agent Mock.terse
    (snd ((load_env;; chat_completion) Mock.terse (started Mock.harness)))
  = (Raise (AttributeError "last_error"),
     add_event (ECheck (VStr "failed") "failed" true)
       (snd (create_and_run_agent_run Mock.terse
               (snd ((load_env;; chat_completion) Mock.terse (started Mock.harness))))))
  ∧ (create_filesearch_agent;; evaluate_agent_run) Mock.terse
      (started (<["FileSearchTool" := Mock.fn "FileSearchTool"]> Mock.harness))
    = (Raise (AttributeError "last_error"),
       add_event (ECheck (VStr "failed") "failed" true)
         (snd (create_filesearch_agent_run Mock.terse
                 (started (<["FileSearchTool" := Mock.fn "FileSearchTool"]>
                             Mock.harness))))).
Proof.
  destruct (failed_run_without_last_error Mock.terse) as [Hlifecycle Hsearch].
  split.
  - by eapply Hlifecycle.
  - by eapply Hsearch.
Defined.

(** * The environment after [load_dotenv()] (lines 24-40) *)


